(** * Gateway, circuit breaker and order-placement saga of Practica_3

    A shallow embedding of
    - [Practica_3/api_gateway/app/index.js] (the gateway routes, the three
      breaker-wrapped proxies and their fallbacks),
    - [Practica_3/service_management/app] (routes, service and model of the
      inventory backend),
    - [Practica_3/service_orders/app/models.js] and the order service and
      router that use it,
    together with the properties stated for them. *)

From Stdlib Require Import ZArith String Ascii List Bool Lia DecimalString.
From stdpp Require Import gmap strings.
Import ListNotations.
Local Open Scope Z_scope.
Local Open Scope string_scope.
Set Warnings "-register-all".

(** ** JavaScript values *)

Module Js.

(** The values that travel through the gateway: what [JSON.parse] yields,
    plus [undefined].  Numbers are the integers (quantities, identifiers and
    status codes are integers throughout); non-integral and out-of-range
    doubles are outside the model. *)
Inductive value : Type :=
| JUndefined
| JNull
| JBool (b : bool)
| JNum (n : Z)
| JStr (s : string)
| JArr (items : list value)
| JObj (fields : list (string * value)).

(** What a [throw] carries.  A rejected promise carries its reason, kept as
    the JSON it serialises to; the two language errors the handlers can raise
    themselves are kept apart. *)
Inductive exn : Type :=
| TypeError (msg : string)
| ReferenceError (name : string)
| Rejection (reason : value).

(** Completion of an expression: a value or a throw. *)
Inductive res (A : Type) : Type :=
| Val (a : A)
| Err (e : exn).
Arguments Val {A} a.
Arguments Err {A} e.

(** Own property [k] of an object given by its fields; a later duplicate
    wins, as in [JSON.parse] and in object literals. *)
Fixpoint field (k : string) (fs : list (string * value)) : option value :=
  match fs with
  | [] => None
  | (k', v) :: rest =>
      match field k rest with
      | Some v' => Some v'
      | None => if String.eqb k k' then Some v else None
      end
  end.

(** [v.k] for the property names the services read ([error], [quantity],
    [user_id], [product], [length]): reading a property of [undefined] or
    [null] throws a TypeError, a missing property is [undefined]. *)
Definition get (v : value) (k : string) : res value :=
  match v with
  | JUndefined => Err (TypeError ("Cannot read properties of undefined (reading '" +:+ k +:+ "')"))
  | JNull => Err (TypeError ("Cannot read properties of null (reading '" +:+ k +:+ "')"))
  | JObj fs => Val (default JUndefined (field k fs))
  | JArr l => Val (if String.eqb k "length" then JNum (Z.of_nat (length l)) else JUndefined)
  | JStr s => Val (if String.eqb k "length" then JNum (Z.of_nat (String.length s)) else JUndefined)
  | JBool _ | JNum _ => Val JUndefined
  end.

(** [v === 'lit'] against a string literal. *)
Definition strict_eq_str (v : value) (lit : string) : bool :=
  match v with
  | JStr s => String.eqb s lit
  | _ => false
  end.

(** Decimal rendering of a number, as [Number.prototype.toString]. *)
Definition number_to_string (n : Z) : string :=
  NilZero.string_of_int (Z.to_int n).

(** [String(v)], as used by template literals and by [parseInt]. *)
Fixpoint ToString (v : value) : string :=
  match v with
  | JUndefined => "undefined"
  | JNull => "null"
  | JBool true => "true"
  | JBool false => "false"
  | JNum n => number_to_string n
  | JStr s => s
  | JArr l =>
      (fix join (l : list value) : string :=
         match l with
         | [] => ""
         | [x] => match x with JUndefined | JNull => "" | _ => ToString x end
         | x :: rest =>
             (match x with JUndefined | JNull => "" | _ => ToString x end)
               +:+ "," +:+ join rest
         end) l
  | JObj _ => "[object Object]"
  end.

(** White space skipped by [parseInt] (the ASCII part of StrWhiteSpaceChar). *)
Definition is_ws (c : ascii) : bool :=
  let n := nat_of_ascii c in
  ((9 <=? n) && (n <=? 13))%nat || (n =? 32)%nat.

Fixpoint skip_ws (s : string) : string :=
  match s with
  | String c r => if is_ws c then skip_ws r else s
  | EmptyString => s
  end.

(** Value of a digit character in the given radix, if it is one. *)
Definition digit_val (radix : Z) (c : ascii) : option Z :=
  let n := Z.of_nat (nat_of_ascii c) in
  let d := if ((48 <=? n) && (n <=? 57))%Z then Some (n - 48)
           else if ((97 <=? n) && (n <=? 122))%Z then Some (n - 87)
           else if ((65 <=? n) && (n <=? 90))%Z then Some (n - 55)
           else None in
  match d with
  | Some d => if (d <? radix)%Z then Some d else None
  | None => None
  end.

(** The longest prefix of digits, as a number; [None] when there is none. *)
Fixpoint digits (radix : Z) (s : string) (acc : option Z) : option Z :=
  match s with
  | EmptyString => acc
  | String c r =>
      match digit_val radix c with
      | Some d =>
          digits radix r (Some (match acc with Some a => a * radix + d | None => d end))
      | None => acc
      end
  end.

(** [parseInt(s)] on a string, no radix argument: leading white space, a
    sign, a [0x] prefix selecting radix 16, then digits.  [None] is NaN. *)
Definition parseInt_string (s : string) : option Z :=
  let s1 := skip_ws s in
  let '(sign, s2) :=
    match s1 with
    | String "-" r => (-1, r)
    | String "+" r => (1, r)
    | _ => (1, s1)
    end in
  let '(radix, s3) :=
    match s2 with
    | String "0" (String "x" r) => (16, r)
    | String "0" (String "X" r) => (16, r)
    | _ => (10, s2)
    end in
  option_map (Z.mul sign) (digits radix s3 None).

(** [parseInt(v)]: the argument is first converted with [String]. *)
Definition parseInt (v : value) : option Z :=
  match v with
  | JNum n => Some n
  | _ => parseInt_string (ToString v)
  end.

Section LooseEquality.

(** StringToNumber of ECMAScript, restricted to integral results: [Some n]
    when the string denotes the integer [n], [None] when it denotes NaN or a
    non-integer.  Its full definition goes through double-precision
    literals, so it is taken as given. *)
Variable StringToNumber : string -> option Z.

(** [v == s] for a string [s] (the abstract equality of
    [order.user_id == userId.toString()]). *)
Definition loose_eq_str (v : value) (s : string) : bool :=
  match v with
  | JUndefined | JNull => false
  | JBool b => bool_decide (StringToNumber s = Some (if b then 1 else 0))
  | JNum n => bool_decide (StringToNumber s = Some n)
  | JStr t => String.eqb t s
  | JArr _ | JObj _ => String.eqb (ToString v) s
  end.

End LooseEquality.

End Js.

(** ** The gateway: [api_gateway/app/index.js] *)

Module Gateway.
Import Js.

(** The three breakers created in [index.js]. *)
Inductive circuit : Type := usersCircuit | ordersCircuit | managementCircuit.

Inductive verb : Type := GET | POST | PUT | DELETE.

(** The arguments of one [circuit.fire(url, options)].  The URL is kept as
    the path below the service's base address ([process.env.*_SERVICE_URL])
    and the query parameter the gateway interpolates into it, taken to reach
    the backend as it is (no reserved URL characters in it); [data] is
    [options.data] ([undefined] when no options are passed). *)
Record request : Type := mkRequest {
  method : verb;
  path : string;
  query : list (string * string);
  data : value
}.

(** How the promise returned by [fire] settles. *)
Inductive outcome : Type :=
| Resolved (v : value)
| Rejected (reason : value).

(** The payloads registered with [circuit.fallback] (lines 71-73). *)
Definition fallback (c : circuit) : value :=
  match c with
  | usersCircuit => JObj [("error", JStr "Users service temporarily unavailable")]
  | ordersCircuit => JObj [("error", JStr "Orders service temporarily unavailable")]
  | managementCircuit => JObj [("error", JStr "Management service temporarily unavailable")]
  end.

(** What the backend's HTTP endpoint does with one request, as axios sees
    it: a response, or no response at all (connection error, timeout). *)
Inductive http_result : Type :=
| HttpResponse (code : Z) (payload : value)
| NoResponse (error : value).

(** [validateStatus] as passed to axios by the three proxies. *)
Definition validateStatus (code : Z) : bool :=
  ((200 <=? code) && (code <? 300))%Z || (code =? 404)%Z.

Section Proxy.

(** The error axios raises for a response that fails [validateStatus], in
    the form it serialises to; it is axios's own and is taken as given. *)
Variable axios_error : Z -> value -> value.

(** The function wrapped by each breaker (lines 25-68): a response that
    passes [validateStatus] yields its body; an error that carries a 404
    response yields that response's body; any other error is rethrown. *)
Definition action (r : http_result) : outcome :=
  match r with
  | HttpResponse code payload =>
      if validateStatus code then Resolved payload
      else if (code =? 404)%Z then Resolved payload
      else Rejected (axios_error code payload)
  | NoResponse error => Rejected error
  end.

End Proxy.

(** Whether the wrapped function throws on this answer: no response, or a
    status that [validateStatus] refuses. *)
Definition failing (r : http_result) : bool :=
  match r with
  | HttpResponse code _ => negb (validateStatus code)
  | NoResponse _ => true
  end.

(** What the promise of [circuit.fire] settles to when the wrapped function
    settles as [o].  Every breaker has a fallback registered (lines 71-73),
    and with a fallback opossum does not let a failure through: the promise
    resolves to what the fallback returns.  (This is the documented behaviour
    of the library, whose code is not in the repository.) *)
Definition guard (c : circuit) (o : outcome) : outcome :=
  match o with
  | Resolved v => Resolved v
  | Rejected _ => Resolved (fallback c)
  end.

(** The characters that reach [req.query] of the backend as they were
    interpolated into the URL: the unreserved ones (letters, digits,
    [-], [.], [_], [~]). *)
Definition unreserved (ch : ascii) : bool :=
  let n := nat_of_ascii ch in
  (((48 <=? n) && (n <=? 57)) || ((65 <=? n) && (n <=? 90))
   || ((97 <=? n) && (n <=? 122))
   || (n =? 45) || (n =? 46) || (n =? 95) || (n =? 126))%nat.

Fixpoint url_plain (s : string) : bool :=
  match s with
  | EmptyString => true
  | String ch rest => unreserved ch && url_plain rest
  end.

(** A handler body: straight-line code that returns, throws, or fires a
    breaker and continues with the way the promise settles. *)
Inductive prog (A : Type) : Type :=
| Ret (a : A)
| Throw (e : exn)
| Fire (c : circuit) (r : request) (k : outcome -> prog A).
Arguments Ret {A} a.
Arguments Throw {A} e.
Arguments Fire {A} c r k.

Fixpoint bind {A B : Type} (p : prog A) (f : A -> prog B) : prog B :=
  match p with
  | Ret a => f a
  | Throw e => Throw e
  | Fire c r k => Fire c r (fun o => bind (k o) f)
  end.

(** [try { p } catch (error) { h error }] *)
Fixpoint try_catch {A : Type} (p : prog A) (h : exn -> prog A) : prog A :=
  match p with
  | Ret a => Ret a
  | Throw e => h e
  | Fire c r k => Fire c r (fun o => try_catch (k o) h)
  end.

(** [await promise]: a rejection is thrown at the await. *)
Definition settle (o : outcome) : prog value :=
  match o with
  | Resolved v => Ret v
  | Rejected reason => Throw (Rejection reason)
  end.

(** [await circuit.fire(...)] *)
Definition fire (c : circuit) (r : request) : prog value := Fire c r settle.

Definition lift {A : Type} (x : res A) : prog A :=
  match x with
  | Val a => Ret a
  | Err e => Throw e
  end.

Notation "'let!' x ':=' p 'in' q" := (bind p (fun x => q))
  (at level 10, x name, p at level 100, q at level 200).

(** What [res.status(code).json(body)] sends. *)
Record response : Type := mkResponse {
  status : Z;
  body : value
}.

Definition send (code : Z) (b : value) : prog response :=
  Ret {| status := code; body := b |}.

Definition error_body (msg : string) : value := JObj [("error", JStr msg)].

Definition fetch (p : string) : request :=
  {| method := GET; path := p; query := []; data := JUndefined |}.

Definition submit (m : verb) (p : string) (d : value) : request :=
  {| method := m; path := p; query := []; data := d |}.

(** The shape shared by the plain routes: one [fire], the result sent back
    with the route's success status, anything thrown answered by 500. *)
Definition pass_through (c : circuit) (r : request) (ok : Z) (msg : string)
  : prog response :=
  try_catch
    (let! v := fire c r in send ok v)
    (fun _ => send 500 (error_body msg)).

(** The routes that test for the backend's not-found body
    ([/users/:userId], [/orders/:orderId]). *)
Definition lookup_route (c : circuit) (r : request) (missing : string)
  : prog response :=
  try_catch
    (let! v := fire c r in
     let! e := lift (get v "error") in
     if strict_eq_str e missing then send 404 v else send 200 v)
    (fun _ => send 500 (error_body "Internal server error")).

(** The request behind
    [`${MANAGEMENT_SERVICE_URL}/management/product?product=${product}`]. *)
Definition product_lookup (product : value) : request :=
  {| method := GET; path := "/management/product";
     query := [("product", ToString product)]; data := JUndefined |}.

(** [app.get('/management/product')] (lines 247-254): the caught error
    itself is the [error] field of the body. *)
Definition get_management_product (product : value) : prog response :=
  try_catch
    (let! management := fire managementCircuit (product_lookup product) in
     send 200 management)
    (fun error =>
       send 500 (JObj [("error",
                        match error with
                        | Rejection reason => reason
                        | TypeError _ | ReferenceError _ => JObj []
                        end)])).

(** The inventory read of the saga (line 148). *)
Definition inventory_check (product : value) : request := product_lookup product.

(** The inventory write of the saga (lines 155-161). *)
Definition inventory_decrement (product : value) (quantity : Z) : request :=
  submit PUT "/management/product"
    (JObj [("product", product); ("quantity", JNum (quantity - 1))]).

Definition order_creation (reqBody : value) : request :=
  submit POST "/orders" reqBody.

(** [app.post('/orders')] (lines 146-174).  [order] is declared with [const]
    inside the [quantity > 0] block; the [quantity == -1] branch reads an
    identifier that is not in scope there, which throws a ReferenceError
    into the surrounding [catch]. *)
Definition post_orders (reqBody : value) : prog response :=
  try_catch
    (let! product := lift (get reqBody "product") in
     let! management := fire managementCircuit (inventory_check product) in
     let! q := lift (get management "quantity") in
     match parseInt q with
     | Some quantity =>
         if (0 <? quantity)%Z then
           let! order := fire ordersCircuit (order_creation reqBody) in
           let! decreaseQuantity := fire managementCircuit
                                 (inventory_decrement product quantity) in
           send 201 order
         else if (quantity =? -1)%Z then
           Throw (ReferenceError "order")
         else
           send 400 (error_body "Product quantity is 0")
     | None => send 400 (error_body "Product quantity is 0")
     end)
    (fun _ => send 500 (error_body "POST /orders error")).

Section Aggregation.

Variable StringToNumber : string -> option Z.

(** [orders.filter(order => order.user_id == userId.toString())]: only an
    array has [filter]; the callback reads [user_id] of every element. *)
Fixpoint filter_items (userId : string) (l : list value) : res (list value) :=
  match l with
  | [] => Val []
  | order :: rest =>
      match get order "user_id" with
      | Err e => Err e
      | Val uid =>
          match filter_items userId rest with
          | Err e => Err e
          | Val kept =>
              Val (if loose_eq_str StringToNumber uid userId
                   then order :: kept else kept)
          end
      end
  end.

Definition filter_orders (userId : string) (orders : value) : res value :=
  match orders with
  | JArr l =>
      match filter_items userId l with
      | Val kept => Val (JArr kept)
      | Err e => Err e
      end
  | JUndefined | JNull =>
      Err (TypeError "Cannot read properties of undefined (reading 'filter')")
  | _ => Err (TypeError "orders.filter is not a function")
  end.

(** An element whose [user_id] can be read. *)
Definition readable (order : value) : Prop :=
  order <> JUndefined /\ order <> JNull.

(** [app.get('/users/:userId/details')] (lines 278-307).  Both calls are
    fired before anything is awaited; [Promise.all] rejects as soon as one
    of the two promises does, and the [catch] does not look at the reason. *)
Definition get_user_details (userId : string) : prog response :=
  try_catch
    (Fire usersCircuit (fetch ("/users/" +:+ userId)) (fun userPromise =>
     Fire ordersCircuit (fetch "/orders") (fun ordersPromise =>
       let! user := settle userPromise in
       let! orders := settle ordersPromise in
       let! userOrders := lift (filter_orders userId orders) in
       let! e := lift (get user "error") in
       if strict_eq_str e "User not found" then send 404 user
       else send 200 (JObj [("user", user); ("orders", userOrders)]))))
    (fun _ => send 500 (error_body "Internal server error")).

End Aggregation.

(** The breaker-backed routes registered by [index.js], with the request
    data each handler reads.  [/health] and [/status] fire no breaker and are
    left out.  [GET /orders/status] and [GET /orders/health] are registered
    (lines 208-224) after [GET /orders/:orderId] (line 133), so Express
    serves them by that earlier handler, with [orderId] the last segment. *)
Inductive route : Type :=
| GetUser (userId : string)
| PostUsers (reqBody : value)
| GetUsers
| DeleteUser (userId : string)
| PutUser (userId : string) (reqBody : value)
| GetOrder (orderId : string)
| PostOrders (reqBody : value)
| GetOrders
| DeleteOrder (orderId : string)
| PutOrder (orderId : string) (reqBody : value)
| GetOrdersStatus
| GetOrdersHealth
| GetManagementAll
| PutManagement (id : string) (reqBody : value)
| GetManagementProduct (product : value)
| GetManagement (id : string)
| PostManagement (reqBody : value)
| GetUserDetails (userId : string).

Definition handler (StringToNumber : string -> option Z) (rt : route)
  : prog response :=
  let ise := "Internal server error" in
  match rt with
  | GetUser userId =>
      lookup_route usersCircuit (fetch ("/users/" +:+ userId)) "User not found"
  | PostUsers reqBody =>
      pass_through usersCircuit (submit POST "/users" reqBody) 201 ise
  | GetUsers => pass_through usersCircuit (fetch "/users") 200 ise
  | DeleteUser userId =>
      pass_through usersCircuit (submit DELETE ("/users/" +:+ userId) JUndefined) 200 ise
  | PutUser userId reqBody =>
      pass_through usersCircuit (submit PUT ("/users/" +:+ userId) reqBody) 200 ise
  | GetOrder orderId =>
      lookup_route ordersCircuit (fetch ("/orders/" +:+ orderId)) "Order not found"
  | PostOrders reqBody => post_orders reqBody
  | GetOrders => pass_through ordersCircuit (fetch "/orders") 200 ise
  | DeleteOrder orderId =>
      pass_through ordersCircuit (submit DELETE ("/orders/" +:+ orderId) JUndefined) 200 ise
  | PutOrder orderId reqBody =>
      pass_through ordersCircuit (submit PUT ("/orders/" +:+ orderId) reqBody) 200 ise
  | GetOrdersStatus =>
      lookup_route ordersCircuit (fetch "/orders/status") "Order not found"
  | GetOrdersHealth =>
      lookup_route ordersCircuit (fetch "/orders/health") "Order not found"
  | GetManagementAll => pass_through managementCircuit (fetch "/management/") 200 ise
  | PutManagement id reqBody =>
      pass_through managementCircuit (submit PUT ("/management/" +:+ id) reqBody) 200 ise
  | GetManagementProduct product => get_management_product product
  | GetManagement id =>
      pass_through managementCircuit (fetch ("/management/" +:+ id)) 200
        "/management/:id error"
  | PostManagement reqBody =>
      pass_through managementCircuit (submit POST "/management" reqBody) 201 ise
  | GetUserDetails userId => get_user_details StringToNumber userId
  end.

(** The routes that fire one breaker once and send what it resolves to:
    the breaker, the request and the status of the success answer. *)
Definition plain (rt : route) : option (circuit * request * Z) :=
  match rt with
  | GetUser userId => Some (usersCircuit, fetch ("/users/" +:+ userId), 200%Z)
  | PostUsers reqBody => Some (usersCircuit, submit POST "/users" reqBody, 201%Z)
  | GetUsers => Some (usersCircuit, fetch "/users", 200%Z)
  | DeleteUser userId =>
      Some (usersCircuit, submit DELETE ("/users/" +:+ userId) JUndefined, 200%Z)
  | PutUser userId reqBody =>
      Some (usersCircuit, submit PUT ("/users/" +:+ userId) reqBody, 200%Z)
  | GetOrder orderId => Some (ordersCircuit, fetch ("/orders/" +:+ orderId), 200%Z)
  | GetOrders => Some (ordersCircuit, fetch "/orders", 200%Z)
  | DeleteOrder orderId =>
      Some (ordersCircuit, submit DELETE ("/orders/" +:+ orderId) JUndefined, 200%Z)
  | PutOrder orderId reqBody =>
      Some (ordersCircuit, submit PUT ("/orders/" +:+ orderId) reqBody, 200%Z)
  | GetOrdersStatus => Some (ordersCircuit, fetch "/orders/status", 200%Z)
  | GetOrdersHealth => Some (ordersCircuit, fetch "/orders/health", 200%Z)
  | GetManagementAll => Some (managementCircuit, fetch "/management/", 200%Z)
  | PutManagement id reqBody =>
      Some (managementCircuit, submit PUT ("/management/" +:+ id) reqBody, 200%Z)
  | GetManagementProduct product =>
      Some (managementCircuit, product_lookup product, 200%Z)
  | GetManagement id => Some (managementCircuit, fetch ("/management/" +:+ id), 200%Z)
  | PostManagement reqBody =>
      Some (managementCircuit, submit POST "/management" reqBody, 201%Z)
  | PostOrders _ | GetUserDetails _ => None
  end.

(** One call made through a breaker. *)
Definition call : Type := circuit * request.

(** Running a handler against a world [W] in which every [fire] settles
    somehow and may change the world; the calls made are recorded in order.
    [None] when the world has no answer for a call. *)
Fixpoint run {W A : Type}
    (settles : circuit -> request -> W -> option (outcome * W))
    (p : prog A) (w : W) : option (res A * W * list call) :=
  match p with
  | Ret a => Some (Val a, w, [])
  | Throw e => Some (Err e, w, [])
  | Fire c r k =>
      match settles c r w with
      | None => None
      | Some (o, w') =>
          match run settles (k o) w' with
          | None => None
          | Some (a, w'', calls) => Some (a, w'', (c, r) :: calls)
          end
      end
  end.

(** A world that is a script: the outcomes of the calls, in the order in
    which they are made. *)
Definition replay (c : circuit) (r : request) (script : list outcome)
  : option (outcome * list outcome) :=
  match script with
  | o :: rest => Some (o, rest)
  | [] => None
  end.

(** A world given by its backends, the breakers being closed when the
    handler starts: every [fire] runs the wrapped function against the
    backend's answer and settles as [guard] says.  (No handler fires a
    breaker again after a failure on it, so a breaker that a failure opens
    plays no part within one request.) *)
Definition fires {W : Type} (axios_error : Z -> value -> value)
    (serve : circuit -> request -> W -> option (http_result * W))
    (c : circuit) (r : request) (w : W) : option (outcome * W) :=
  match serve c r w with
  | Some (h, w') => Some (guard c (action axios_error h), w')
  | None => None
  end.


End Gateway.

(** ** The circuit breaker *)

Module Breaker.

(** Modelled from the spec: the breaker behind [new CircuitBreaker(...)] is
    the [opossum] package required at line 4 of [index.js]; none of its code
    is in the repository.  This module is the state machine of section 4.1
    of the specification over the data model of its section 3.  One
    [execute] is taken as a whole, at one instant [now]: the call is admitted
    or not, and if admitted its outcome is accounted for before the next
    [execute] starts.  The phases are those of the specification. *)
Inductive phase : Type := CLOSED | OPEN | HALF_OPEN.

(** Modelled from the spec: the statically configured policy of one
    downstream (timeout, error-ratio threshold as a percentage, minimum
    sample volume, reset interval, half-open trial limit). *)
Record policy : Type := mkPolicy {
  timeout : Z;
  errorThresholdPercentage : Z;
  volumeThreshold : Z;
  resetTimeout : Z;
  trialLimit : Z
}.

(** [circuitOptions] of [index.js] (lines 18-22); the minimum sample volume
    and the trial limit are not set there and stay parameters. *)
Definition circuitOptions (volume trials : Z) : policy :=
  {| timeout := 3000;
     errorThresholdPercentage := 50;
     volumeThreshold := volume;
     resetTimeout := 3000;
     trialLimit := trials |}.

(** Modelled from the spec: the breaker state of section 3: the phase, the
    rolling window as its success and failure counts, the time the breaker
    last opened, and the number of trial calls in flight.  The specification
    gives no rule by which samples leave the window other than the two
    resets. *)
Record state : Type := mkState {
  current : phase;
  successes : Z;
  failures : Z;
  openedAt : Z;
  trials : Z
}.

(** Modelled from the spec: CLOSED is the initial phase. *)
Definition initial : state :=
  {| current := CLOSED; successes := 0; failures := 0; openedAt := 0; trials := 0 |}.

(** Modelled from the spec: how one attempted call ended, as the breaker
    counts it. *)
Inductive verdict : Type := Success | Failure.

(** Modelled from the spec: whether [execute] attempted the call or
    returned the fallback at once. *)
Inductive decision : Type := Attempt | ShortCircuit.

Definition samples (s : state) : Z := successes s + failures s.

(** Modelled from the spec: "the window has accumulated at least the
    configured minimum sample volume and the failure ratio within the window
    is >= the configured error-ratio threshold", the ratio compared as a
    percentage. *)
Definition tripped (p : policy) (s : state) : bool :=
  (volumeThreshold p <=? samples s)%Z
  && (errorThresholdPercentage p * samples s <=? 100 * failures s)%Z.

(** Modelled from the spec: "each outcome updates the rolling window". *)
Definition count (v : verdict) (s : state) : state :=
  match v with
  | Success =>
      {| current := current s; successes := successes s + 1;
         failures := failures s; openedAt := openedAt s; trials := trials s |}
  | Failure =>
      {| current := current s; successes := successes s;
         failures := failures s + 1; openedAt := openedAt s; trials := trials s |}
  end.

(** Modelled from the spec: CLOSED: the outcome updates the window; if the
    window then trips, "transition to OPEN and record the open timestamp". *)
Definition closed_outcome (p : policy) (now : Z) (v : verdict) (s : state) : state :=
  let s' := count v s in
  if tripped p s'
  then {| current := OPEN; successes := successes s'; failures := failures s';
          openedAt := now; trials := trials s' |}
  else s'.

(** Modelled from the spec: "a trial success closes the breaker (phase ->
    CLOSED, rolling window reset); a trial failure reopens it (phase ->
    OPEN, open timestamp reset, rolling window reset)". *)
Definition trial_outcome (now : Z) (v : verdict) (s : state) : state :=
  match v with
  | Success =>
      {| current := CLOSED; successes := 0; failures := 0;
         openedAt := openedAt s; trials := trials s |}
  | Failure =>
      {| current := OPEN; successes := 0; failures := 0;
         openedAt := now; trials := trials s |}
  end.

(** Modelled from the spec: [execute(call)] at time [now], where [v] is how
    the call ends if it is attempted.  CLOSED attempts; OPEN returns the
    fallback until the time since the open timestamp exceeds the reset
    interval, and then admits the call as a trial; HALF_OPEN admits a trial
    while fewer than the limit are in flight. *)
Definition execute (p : policy) (now : Z) (v : verdict) (s : state)
  : decision * state :=
  match current s with
  | CLOSED => (Attempt, closed_outcome p now v s)
  | OPEN =>
      if (resetTimeout p <? now - openedAt s)%Z
      then (Attempt, trial_outcome now v s)
      else (ShortCircuit, s)
  | HALF_OPEN =>
      if (trials s <? trialLimit p)%Z
      then (Attempt, trial_outcome now v s)
      else (ShortCircuit, s)
  end.

(** What holds of the breaker between two [execute]s: it is not left
    HALF_OPEN, and while CLOSED a window that is not empty has not
    tripped. *)
Definition settled (p : policy) (s : state) : Prop :=
  current s <> HALF_OPEN
  /\ (current s = CLOSED -> (0 < samples s)%Z -> tripped p s = false).

(** A sequence of [execute] calls, each with its time and the way its call
    would end; the decisions are returned in order. *)
Fixpoint execute_all (p : policy) (calls : list (Z * verdict)) (s : state)
  : list decision * state :=
  match calls with
  | [] => ([], s)
  | (now, v) :: rest =>
      let '(d, s') := execute p now v s in
      let '(ds, s'') := execute_all p rest s' in
      (d :: ds, s'')
  end.

(** Number of calls that reached the downstream. *)
Definition invocations (ds : list decision) : nat :=
  length (List.filter (fun d => match d with Attempt => true | ShortCircuit => false end) ds).

End Breaker.

(** ** The gateway behind its breakers *)

Module Guarded.
Import Js Gateway.

(** The world a request runs in: the clock, the state of each breaker, what
    each backend would answer, and the calls that reached a backend. *)
Record world : Type := mkWorld {
  clock : Z;
  breakers : circuit -> Breaker.state;
  backend : circuit -> request -> http_result;
  invoked : list call
}.

Definition circuit_eqb (a b : circuit) : bool :=
  match a, b with
  | usersCircuit, usersCircuit
  | ordersCircuit, ordersCircuit
  | managementCircuit, managementCircuit => true
  | _, _ => false
  end.

(** Modelled from the spec: "a 2xx response or a structurally valid not
    found response counts as success", everything the wrapped function
    rethrows as failure. *)
Definition classify (o : outcome) : Breaker.verdict :=
  match o with
  | Resolved _ => Breaker.Success
  | Rejected _ => Breaker.Failure
  end.

Section Fire.

Variable axios_error : Z -> value -> value.
Variable policy : circuit -> Breaker.policy.

(** Modelled from the spec: [circuit.fire(url, options)] is opossum's; as
    the specification has it, the breaker decides, an attempted call settles
    as the wrapped function does, and a short-circuited call returns the
    registered fallback and reaches no backend. *)
Definition fire (c : circuit) (r : request) (w : world)
  : option (outcome * world) :=
  let o := action axios_error (backend w c r) in
  let '(d, s') := Breaker.execute (policy c) (clock w) (classify o) (breakers w c) in
  let bs := fun c' => if circuit_eqb c' c then s' else breakers w c' in
  match d with
  | Breaker.ShortCircuit =>
      Some (Resolved (fallback c),
            {| clock := clock w; breakers := bs; backend := backend w;
               invoked := invoked w |})
  | Breaker.Attempt =>
      Some (o,
            {| clock := clock w; breakers := bs; backend := backend w;
               invoked := invoked w ++ [(c, r)] |})
  end.

End Fire.

End Guarded.

(** ** The inventory backend: [service_management/app] *)

(** [models.js] of the management service.  Strings are compared and
    measured byte by byte, which is character by character for ASCII
    product names. *)
Module ManagementModel.

(** A row of table [management], with the columns the statements name. *)
Record row : Type := mkRow {
  id : Z;
  product : string;
  quantity : Z
}.

(** What the queries hand to the service, and the service to Redis as
    JSON: one [{product, quantity}] selection, or a list of rows. *)
Inductive result : Type :=
| Single (name : string) (amount : Z)
| Listing (rows : list row).

Definition named (p : string) (r : row) : bool := String.eqb (product r) p.

(** [getByProduct]:
    [SELECT product, quantity FROM management WHERE product = $1], first row. *)
Definition getByProduct (p : string) (t : list row) : option result :=
  match List.find (named p) t with
  | Some r => Some (Single (product r) (quantity r))
  | None => None
  end.

Definition set_quantity (p : string) (q : Z) (r : row) : row :=
  if named p r then {| id := id r; product := product r; quantity := q |} else r.

(** [decreaseQuantity]:
    [UPDATE management SET quantity = $1 WHERE product = $2 RETURNING *],
    first returned row. *)
Definition decreaseQuantity (p : string) (q : Z) (t : list row)
  : option row * list row :=
  let t' := map (set_quantity p q) t in
  (List.find (named p) t', t').

(** [getById]:
    [SELECT product, quantity FROM management WHERE id = $1], first row. *)
Definition getById (i : Z) (t : list row) : option result :=
  match List.find (fun r => (id r =? i)%Z) t with
  | Some r => Some (Single (product r) (quantity r))
  | None => None
  end.

Definition set_row (i : Z) (p : string) (q : Z) (r : row) : row :=
  if (id r =? i)%Z then {| id := id r; product := p; quantity := q |} else r.

(** [update]:
    [UPDATE management SET product = $1, quantity = $2 WHERE id = $3
     RETURNING *], first returned row. *)
Definition update (i : Z) (p : string) (q : Z) (t : list row)
  : option row * list row :=
  let t' := map (set_row i p q) t in
  (List.find (fun r => (id r =? i)%Z) t', t').

End ManagementModel.

(** [services/management_service.js]: the model behind a Redis cache. *)
Module ManagementService.
Import Js.

Record state : Type := mkState {
  table : list ManagementModel.row;
  cache : gmap string ManagementModel.result
}.

Definition key (suffix : string) : string := "management:" +:+ suffix.

(** [getManagementByProduct]: the cached entry if there is one, else the
    row, which is then cached. *)
Definition getManagementByProduct (p : string) (st : state)
  : option ManagementModel.result * state :=
  match cache st !! key p with
  | Some cachedManagement => (Some cachedManagement, st)
  | None =>
      match ManagementModel.getByProduct p (table st) with
      | Some management =>
          (Some management,
           {| table := table st; cache := <[key p := management]> (cache st) |})
      | None => (None, st)
      end
  end.

(** [decreaseQuantity]: the update, then the three cache keys of the
    updated row are dropped. *)
Definition decreaseQuantity (p : string) (q : Z) (st : state)
  : option ManagementModel.row * state :=
  match ManagementModel.decreaseQuantity p q (table st) with
  | (Some decreasedQuantity, t') =>
      (Some decreasedQuantity,
       {| table := t';
          cache := base.delete (key (number_to_string (ManagementModel.id decreasedQuantity)))
                     (base.delete (key "all")
                        (base.delete (key p) (cache st))) |})
  | (None, t') => (None, {| table := t'; cache := cache st |})
  end.

(** [getManagementById], for an [id] written as the decimal numeral of [i]:
    the cached entry if there is one, else the row, which is then cached. *)
Definition getManagementById (i : Z) (st : state)
  : option ManagementModel.result * state :=
  match cache st !! key (number_to_string i) with
  | Some cachedManagement => (Some cachedManagement, st)
  | None =>
      match ManagementModel.getById i (table st) with
      | Some management =>
          (Some management,
           {| table := table st;
              cache := <[key (number_to_string i) := management]> (cache st) |})
      | None => (None, st)
      end
  end.

(** [updateManagement]: the update, then the keys of the id and of the
    list are dropped; the key of the product is not. *)
Definition updateManagement (i : Z) (p : string) (q : Z) (st : state)
  : option ManagementModel.row * state :=
  match ManagementModel.update i p q (table st) with
  | (Some updatedManagement, t') =>
      (Some updatedManagement,
       {| table := t';
          cache := base.delete (key "all")
                     (base.delete (key (number_to_string i)) (cache st)) |})
  | (None, t') => (None, {| table := t'; cache := cache st |})
  end.

End ManagementService.

(** [routes/management.js]: the two [/product] routes, as status and body. *)
Module ManagementRouter.
Import Js.

Definition row_json (r : ManagementModel.row) : value :=
  JObj [("id", JNum (ManagementModel.id r));
        ("product", JStr (ManagementModel.product r));
        ("quantity", JNum (ManagementModel.quantity r))].

Definition result_json (e : ManagementModel.result) : value :=
  match e with
  | ManagementModel.Single name amount =>
      JObj [("product", JStr name); ("quantity", JNum amount)]
  | ManagementModel.Listing rows => JArr (map row_json rows)
  end.

(** [router.get('/product')] (lines 7-19): no row, or an empty list, answers
    the sentinel [{quantity: -1}]. *)
Definition get_product (p : string) (st : ManagementService.state)
  : (Z * value) * ManagementService.state :=
  let '(management, st') := ManagementService.getManagementByProduct p st in
  match management with
  | None | Some (ManagementModel.Listing []) =>
      ((200, JObj [("quantity", JNum (-1))]), st')
  | Some e => ((200, result_json e), st')
  end.

(** [router.get('/:id')] (lines 42-54), the id being the decimal numeral of
    [i]: only a missing result answers 404. *)
Definition get_management (i : Z) (st : ManagementService.state)
  : (Z * value) * ManagementService.state :=
  let '(management, st') := ManagementService.getManagementById i st in
  match management with
  | None => ((404, JObj [("error", JStr "Management not found")]), st')
  | Some e => ((200, result_json e), st')
  end.

Section Routes.

(** The message Joi reports for a body its schema rejects. *)
Variable joi_message : value -> string.

(** [updateSchema] on a body [{product, quantity}] with a string and an
    integer. *)
Definition updateSchema (p : string) (q : Z) : bool :=
  ((3 <=? String.length p) && (String.length p <=? 30))%nat && (0 <=? q)%Z.

(** [router.put('/product')] (lines 21-40). *)
Definition put_product (p : string) (q : Z) (st : ManagementService.state)
  : (Z * value) * ManagementService.state :=
  if updateSchema p q then
    match ManagementService.decreaseQuantity p q st with
    | (Some management, st') => ((200, row_json management), st')
    | (None, st') => ((404, JObj [("error", JStr "Management not found")]), st')
    end
  else
    ((400, JObj [("error",
                  JStr (joi_message (JObj [("product", JStr p); ("quantity", JNum q)])))]),
     st).

(** [router.put('/:id')] (lines 86-105) on a body [{product, quantity}]
    with a string and an integer. *)
Definition put_management (i : Z) (p : string) (q : Z) (st : ManagementService.state)
  : (Z * value) * ManagementService.state :=
  if updateSchema p q then
    match ManagementService.updateManagement i p q st with
    | (Some management, st') => ((200, row_json management), st')
    | (None, st') => ((404, JObj [("error", JStr "Management not found")]), st')
    end
  else
    ((400, JObj [("error",
                  JStr (joi_message (JObj [("product", JStr p); ("quantity", JNum q)])))]),
     st).

End Routes.

End ManagementRouter.

(** ** The order backend: [service_orders/app] *)

(** [models.js] of the order service. *)
Module OrderModel.

Record row : Type := mkRow {
  id : Z;
  user_id : Z;
  product : string
}.

(** Table [orders] with the sequence behind its identity column: the value
    the next insert draws, and the value [RESTART IDENTITY] puts it back
    to. *)
Record table : Type := mkTable {
  rows : list row;
  next_id : Z;
  restart : Z
}.

(** What the queries hand to the service, and the service to Redis as
    JSON: one [{user_id, product}] selection, or a list of rows. *)
Inductive result : Type :=
| Single (owner : Z) (name : string)
| Listing (listed : list row).

(** [create]:
    [INSERT INTO orders (user_id, product) VALUES ($1, $2) RETURNING *]. *)
Definition create (u : Z) (p : string) (t : table) : row * table :=
  let r := {| id := next_id t; user_id := u; product := p |} in
  (r, {| rows := rows t ++ [r]; next_id := next_id t + 1; restart := restart t |}).

(** What [TRUNCATE TABLE orders RESTART IDENTITY] leaves of a table. *)
Definition truncated (t : table) : table :=
  {| rows := []; next_id := restart t; restart := restart t |}.

(** [getAll] (lines 10-16): [SELECT * FROM orders], and when that is empty
    [TRUNCATE TABLE orders RESTART IDENTITY]. *)
Definition getAll (t : table) : list row * table :=
  match rows t with
  | [] => ([], truncated t)
  | _ :: _ => (rows t, t)
  end.

(** [delete]: [DELETE FROM orders WHERE id = $1 RETURNING *], first row. *)
Definition delete (i : Z) (t : table) : option row * table :=
  (List.find (fun r => (id r =? i)%Z) (rows t),
   {| rows := List.filter (fun r => negb (id r =? i)%Z) (rows t);
      next_id := next_id t; restart := restart t |}).

(** [getById]: [SELECT user_id, product FROM orders WHERE id = $1], first
    row. *)
Definition getById (i : Z) (t : table) : option result :=
  match List.find (fun r => (id r =? i)%Z) (rows t) with
  | Some r => Some (Single (user_id r) (product r))
  | None => None
  end.

Definition set_product (i : Z) (p : string) (r : row) : row :=
  if (id r =? i)%Z then {| id := id r; user_id := user_id r; product := p |} else r.

(** [update]: [UPDATE orders SET product = $1 WHERE id = $2 RETURNING *],
    first returned row; the [user_id] of the new data is read and not
    used. *)
Definition update (i : Z) (p : string) (t : table) : option row * table :=
  let rows' := map (set_product i p) (rows t) in
  (List.find (fun r => (id r =? i)%Z) rows',
   {| rows := rows'; next_id := next_id t; restart := restart t |}).

(** One statement of the model run against the table. *)
Inductive statement : Type :=
| Insert (u : Z) (p : string)
| SelectAll
| Delete (i : Z)
| Update (i : Z) (p : string).

Definition perform (q : statement) (t : table) : table :=
  match q with
  | Insert u p => snd (create u p t)
  | SelectAll => snd (getAll t)
  | Delete i => snd (delete i t)
  | Update i p => snd (update i p t)
  end.

(** The identifiers in the table are pairwise distinct and below the next
    value of the sequence. *)
Definition well_keyed (t : table) : Prop :=
  NoDup (map id (rows t)) /\ Forall (fun r => (id r < next_id t)%Z) (rows t).

End OrderModel.

(** The order service: the model behind a Redis cache. *)
Module OrderService.
Import Js.

Record state : Type := mkState {
  db : OrderModel.table;
  cache : gmap string OrderModel.result
}.

(** [createOrder] *)
Definition createOrder (u : Z) (p : string) (st : state) : OrderModel.row * state :=
  let '(newOrder, t') := OrderModel.create u p (db st) in
  (newOrder, {| db := t'; cache := base.delete "order:all" (cache st) |}).

(** [getOrderAll]: the cached list if there is one, else [OrderModel.getAll],
    cached when it is not empty. *)
Definition getOrderAll (st : state) : OrderModel.result * state :=
  match cache st !! "order:all" with
  | Some cachedOrders => (cachedOrders, st)
  | None =>
      let '(orders, t') := OrderModel.getAll (db st) in
      (OrderModel.Listing orders,
       {| db := t';
          cache := match orders with
                   | [] => cache st
                   | _ :: _ => <["order:all" := OrderModel.Listing orders]> (cache st)
                   end |})
  end.

(** [deleteOrder]: after a row has been deleted the function reads
    [order_id], which is not bound in it. *)
Definition deleteOrder (i : Z) (st : state) : res (option OrderModel.row) * state :=
  let '(deletedOrder, t') := OrderModel.delete i (db st) in
  let st' := {| db := t'; cache := cache st |} in
  match deletedOrder with
  | Some _ => (Err (ReferenceError "order_id"), st')
  | None => (Val None, st')
  end.

Definition key (suffix : string) : string := "order:" +:+ suffix.

(** [getOrderById], for an [order_id] written as the decimal numeral of
    [i]: the cached entry if there is one, else the row, which is then
    cached. *)
Definition getOrderById (i : Z) (st : state) : option OrderModel.result * state :=
  match cache st !! key (number_to_string i) with
  | Some cachedOrder => (Some cachedOrder, st)
  | None =>
      match OrderModel.getById i (db st) with
      | Some order =>
          (Some order,
           {| db := db st; cache := <[key (number_to_string i) := order]> (cache st) |})
      | None => (None, st)
      end
  end.

(** [updateOrder]: after a row has been updated the function reads
    [order_id], which is not bound in it. *)
Definition updateOrder (i : Z) (p : string) (st : state)
  : res (option OrderModel.row) * state :=
  let '(updatedOrder, t') := OrderModel.update i p (db st) in
  let st' := {| db := t'; cache := cache st |} in
  match updatedOrder with
  | Some _ => (Err (ReferenceError "order_id"), st')
  | None => (Val None, st')
  end.

End OrderService.

(** The order router, as status and body. *)
Module OrderRouter.
Import Js.

Definition row_json (r : OrderModel.row) : value :=
  JObj [("id", JNum (OrderModel.id r)); ("user_id", JNum (OrderModel.user_id r));
        ("product", JStr (OrderModel.product r))].

Definition result_json (e : OrderModel.result) : value :=
  match e with
  | OrderModel.Single owner name =>
      JObj [("user_id", JNum owner); ("product", JStr name)]
  | OrderModel.Listing listed => JArr (map row_json listed)
  end.

(** [router.get('/')] *)
Definition get_orders (st : OrderService.state) : (Z * value) * OrderService.state :=
  let '(orders, st') := OrderService.getOrderAll st in
  match orders with
  | OrderModel.Listing [] => ((404, JObj [("error", JStr "Orders not found")]), st')
  | e => ((200, result_json e), st')
  end.

(** [error.message] of what a [catch] caught. *)
Definition message (e : exn) : value :=
  match e with
  | TypeError msg => JStr msg
  | ReferenceError name => JStr (name +:+ " is not defined")
  | Rejection reason =>
      match get reason "message" with
      | Val m => m
      | Err _ => JUndefined
      end
  end.

(** [router.delete('/:id')] *)
Definition delete_order (i : Z) (st : OrderService.state)
  : (Z * value) * OrderService.state :=
  match OrderService.deleteOrder i st with
  | (Val (Some deletedOrder), st') => ((200, row_json deletedOrder), st')
  | (Val None, st') => ((404, JObj [("error", JStr "Order not found")]), st')
  | (Err e, st') => ((500, JObj [("error", message e)]), st')
  end.

(** [router.get('/:id')], the id being the decimal numeral of [i]. *)
Definition get_order (i : Z) (st : OrderService.state)
  : (Z * value) * OrderService.state :=
  let '(order, st') := OrderService.getOrderById i st in
  match order with
  | None | Some (OrderModel.Listing []) =>
      ((404, JObj [("error", JStr "Order not found")]), st')
  | Some e => ((200, result_json e), st')
  end.

Section Routes.

Variable joi_message : value -> string.

(** [createSchema] of the order service on a body [{user_id, product}] with
    an integer and a string. *)
Definition createSchema (u : Z) (p : string) : bool :=
  (0 <? u)%Z && ((3 <=? String.length p) && (String.length p <=? 30))%nat.

(** [router.post('/')] *)
Definition post_order (u : Z) (p : string) (st : OrderService.state)
  : (Z * value) * OrderService.state :=
  if createSchema u p then
    let '(newOrder, st') := OrderService.createOrder u p st in
    ((201, row_json newOrder), st')
  else
    ((400, JObj [("error",
                  JStr (joi_message (JObj [("user_id", JNum u); ("product", JStr p)])))]),
     st).

(** [updateSchema] of the order service on a body with a string [product]
    and, if present, an integer [user_id]. *)
Definition updateSchema (u : option Z) (p : string) : bool :=
  ((3 <=? String.length p) && (String.length p <=? 30))%nat.

Definition update_body (u : option Z) (p : string) : value :=
  match u with
  | Some n => JObj [("user_id", JNum n); ("product", JStr p)]
  | None => JObj [("product", JStr p)]
  end.

(** [router.put('/:id')], the id being the decimal numeral of [i]. *)
Definition put_order (i : Z) (u : option Z) (p : string) (st : OrderService.state)
  : (Z * value) * OrderService.state :=
  if updateSchema u p then
    match OrderService.updateOrder i p st with
    | (Val (Some updatedOrder), st') => ((200, row_json updatedOrder), st')
    | (Val None, st') => ((404, JObj [("error", JStr "Order not found")]), st')
    | (Err e, st') => ((500, JObj [("error", message e)]), st')
    end
  else ((400, JObj [("error", JStr (joi_message (update_body u p)))]), st).

End Routes.

End OrderRouter.

(** ** The user backend *)

(** [UserModel] of the user service. *)
Module UserModel.

Record row : Type := mkRow {
  id : Z;
  email : string;
  name : string
}.

(** Table [users] with the sequence behind its identity column. *)
Record table : Type := mkTable {
  rows : list row;
  next_id : Z;
  restart : Z
}.

(** What the queries hand to the service, and the service to Redis as
    JSON: one [{email, name}] selection, or a list of rows. *)
Inductive result : Type :=
| Single (address : string) (called : string)
| Listing (listed : list row).

(** [create]: [INSERT INTO users (email, name) VALUES ($1, $2) RETURNING *]. *)
Definition create (e n : string) (t : table) : row * table :=
  let r := {| id := next_id t; email := e; name := n |} in
  (r, {| rows := rows t ++ [r]; next_id := next_id t + 1; restart := restart t |}).

(** [findById]: [SELECT email, name FROM users WHERE id = $1], first row. *)
Definition findById (i : Z) (t : table) : option result :=
  match List.find (fun r => (id r =? i)%Z) (rows t) with
  | Some r => Some (Single (email r) (name r))
  | None => None
  end.

Definition set_user (i : Z) (e n : string) (r : row) : row :=
  if (id r =? i)%Z then {| id := id r; email := e; name := n |} else r.

(** [update]:
    [UPDATE users SET email = $1, name = $2 WHERE id = $3 RETURNING *],
    first returned row. *)
Definition update (i : Z) (e n : string) (t : table) : option row * table :=
  let rows' := map (set_user i e n) (rows t) in
  (List.find (fun r => (id r =? i)%Z) rows',
   {| rows := rows'; next_id := next_id t; restart := restart t |}).

(** [getAll]: [SELECT * FROM users], and when that is empty
    [TRUNCATE TABLE users RESTART IDENTITY]. *)
Definition getAll (t : table) : list row * table :=
  match rows t with
  | [] => ([], {| rows := []; next_id := restart t; restart := restart t |})
  | _ :: _ => (rows t, t)
  end.

(** [delete]: [DELETE FROM users WHERE id = $1 RETURNING *], first row. *)
Definition delete (i : Z) (t : table) : option row * table :=
  (List.find (fun r => (id r =? i)%Z) (rows t),
   {| rows := List.filter (fun r => negb (id r =? i)%Z) (rows t);
      next_id := next_id t; restart := restart t |}).

End UserModel.

(** [UserService]: the model behind a Redis cache. *)
Module UserService.
Import Js.

Record state : Type := mkState {
  db : UserModel.table;
  cache : gmap string UserModel.result
}.

Definition key (suffix : string) : string := "user:" +:+ suffix.

(** [createUser]: the insert, then key [users:all] is dropped. *)
Definition createUser (e n : string) (st : state) : UserModel.row * state :=
  let '(user, t') := UserModel.create e n (db st) in
  (user, {| db := t'; cache := base.delete "users:all" (cache st) |}).

(** [getAllUsers]: the list cached under [user:all] if there is one, else
    [UserModel.getAll], cached under [user:all] when it is not empty. *)
Definition getAllUsers (st : state) : UserModel.result * state :=
  match cache st !! "user:all" with
  | Some cachedUsers => (cachedUsers, st)
  | None =>
      let '(users, t') := UserModel.getAll (db st) in
      (UserModel.Listing users,
       {| db := t';
          cache := match users with
                   | [] => cache st
                   | _ :: _ => <["user:all" := UserModel.Listing users]> (cache st)
                   end |})
  end.

(** [getUserById], for an [id] written as the decimal numeral of [i]. *)
Definition getUserById (i : Z) (st : state) : option UserModel.result * state :=
  match cache st !! key (number_to_string i) with
  | Some cachedUser => (Some cachedUser, st)
  | None =>
      match UserModel.findById i (db st) with
      | Some user =>
          (Some user,
           {| db := db st; cache := <[key (number_to_string i) := user]> (cache st) |})
      | None => (None, st)
      end
  end.

(** [updateUser]: the update, then the key of the id and key [users:all:*]
    are dropped. *)
Definition updateUser (i : Z) (e n : string) (st : state)
  : option UserModel.row * state :=
  match UserModel.update i e n (db st) with
  | (Some user, t') =>
      (Some user,
       {| db := t';
          cache := base.delete "users:all:*"
                     (base.delete (key (number_to_string i)) (cache st)) |})
  | (None, t') => (None, {| db := t'; cache := cache st |})
  end.

(** [deleteUser]: the delete, then the same two keys are dropped. *)
Definition deleteUser (i : Z) (st : state) : option UserModel.row * state :=
  match UserModel.delete i (db st) with
  | (Some user, t') =>
      (Some user,
       {| db := t';
          cache := base.delete "users:all:*"
                     (base.delete (key (number_to_string i)) (cache st)) |})
  | (None, t') => (None, {| db := t'; cache := cache st |})
  end.

End UserService.

(** The user router, as status and body. *)
Module UserRouter.
Import Js.

Definition row_json (r : UserModel.row) : value :=
  JObj [("id", JNum (UserModel.id r)); ("email", JStr (UserModel.email r));
        ("name", JStr (UserModel.name r))].

Definition result_json (e : UserModel.result) : value :=
  match e with
  | UserModel.Single address called =>
      JObj [("email", JStr address); ("name", JStr called)]
  | UserModel.Listing listed => JArr (map row_json listed)
  end.

(** [router.get('/:id')], the id being the decimal numeral of [i]. *)
Definition get_user (i : Z) (st : UserService.state)
  : (Z * value) * UserService.state :=
  let '(user, st') := UserService.getUserById i st in
  match user with
  | None | Some (UserModel.Listing []) =>
      ((404, JObj [("error", JStr "User not found")]), st')
  | Some e => ((200, result_json e), st')
  end.

(** [router.get('/')] *)
Definition get_users (st : UserService.state) : (Z * value) * UserService.state :=
  let '(users, st') := UserService.getAllUsers st in
  match users with
  | UserModel.Listing [] => ((404, JObj [("error", JStr "Users not found")]), st')
  | e => ((200, result_json e), st')
  end.

(** [router.delete('/:id')]: 204 with no body once the row is deleted. *)
Definition delete_user (i : Z) (st : UserService.state)
  : (Z * value) * UserService.state :=
  match UserService.deleteUser i st with
  | (Some _, st') => ((204, JUndefined), st')
  | (None, st') => ((404, JObj [("error", JStr "User not found")]), st')
  end.

Section Routes.

Variable joi_message : value -> string.

(** Joi's [string().email()], taken as given. *)
Variable email_ok : string -> bool.

(** [createSchema] and [updateSchema] of the user service on a body
    [{name, email}] of two strings. *)
Definition schema (e n : string) : bool :=
  ((3 <=? String.length n) && (String.length n <=? 30))%nat && email_ok e.

Definition user_body (e n : string) : value :=
  JObj [("name", JStr n); ("email", JStr e)].

(** [router.post('/')] *)
Definition post_user (e n : string) (st : UserService.state)
  : (Z * value) * UserService.state :=
  if schema e n then
    let '(user, st') := UserService.createUser e n st in
    ((201, row_json user), st')
  else ((400, JObj [("error", JStr (joi_message (user_body e n)))]), st).

(** [router.put('/:id')], the id being the decimal numeral of [i]. *)
Definition put_user (i : Z) (e n : string) (st : UserService.state)
  : (Z * value) * UserService.state :=
  if schema e n then
    match UserService.updateUser i e n st with
    | (Some user, st') => ((200, row_json user), st')
    | (None, st') => ((404, JObj [("error", JStr "User not found")]), st')
    end
  else ((400, JObj [("error", JStr (joi_message (user_body e n)))]), st).

End Routes.

End UserRouter.

(** ** The gateway in front of the two backends *)

Module Deployment.
Import Js Gateway.

Record world : Type := mkWorld {
  management : ManagementService.state;
  orders : OrderService.state
}.

Section Serve.

Variable axios_error : Z -> value -> value.
Variable joi_message : value -> string.

(** The backend's answer to a request of the saga or to the order listing.
    The bodies decoded are those with a string [product] and integer
    [quantity] or [user_id], and the product of a query is taken only when
    it is made of unreserved characters: the gateway interpolates it into
    the URL as it is, and with [&], [#], [+] or [%] in it the backend would
    read another name.  [None] for every other request. *)
Definition serve (c : circuit) (r : request) (w : world)
  : option (http_result * world) :=
  match c, method r with
  | managementCircuit, GET =>
      match query r with
      | [(k, p)] =>
          if String.eqb (path r) "/management/product" && String.eqb k "product"
             && url_plain p
          then
            let '((code, payload), m') := ManagementRouter.get_product p (management w) in
            Some (HttpResponse code payload,
                  {| management := m'; orders := orders w |})
          else None
      | _ => None
      end
  | managementCircuit, PUT =>
      match data r with
      | JObj [(k1, JStr p); (k2, JNum q)] =>
          if String.eqb (path r) "/management/product"
             && String.eqb k1 "product" && String.eqb k2 "quantity"
          then
            let '((code, payload), m') :=
              ManagementRouter.put_product joi_message p q (management w) in
            Some (HttpResponse code payload,
                  {| management := m'; orders := orders w |})
          else None
      | _ => None
      end
  | ordersCircuit, POST =>
      match data r with
      | JObj ([_; _] as fs) =>
          match field "user_id" fs, field "product" fs with
          | Some (JNum u), Some (JStr p) =>
              if String.eqb (path r) "/orders" then
                let '((code, payload), o') :=
                  OrderRouter.post_order joi_message u p (orders w) in
                Some (HttpResponse code payload,
                      {| management := management w; orders := o' |})
              else None
          | _, _ => None
          end
      | _ => None
      end
  | ordersCircuit, GET =>
      if String.eqb (path r) "/orders" then
        let '((code, payload), o') := OrderRouter.get_orders (orders w) in
        Some (HttpResponse code payload,
              {| management := management w; orders := o' |})
      else None
  | _, _ => None
  end.

(** [fire] with the breaker closed: the wrapped function runs against the
    backend, and a failure resolves to the fallback. *)
Definition fire (c : circuit) (r : request) (w : world)
  : option (outcome * world) :=
  fires axios_error serve c r w.

End Serve.

End Deployment.

(** ** How handlers end *)

Module Behaviour.
Import Js Gateway.

(** Every way the handler body [p] can end, whatever its calls settle to,
    satisfies [P]. *)
Fixpoint ends {A : Type} (P : res A -> Prop) (p : prog A) : Prop :=
  match p with
  | Ret a => P (Val a)
  | Throw e => P (Err e)
  | Fire _ _ k => forall o, ends P (k o)
  end.

(** The handler sent an answer, with one of the statuses [index.js] uses. *)
Definition answered (r : res response) : Prop :=
  exists answer,
    r = Val answer
    /\ (status answer = 200 \/ status answer = 201 \/ status answer = 400
        \/ status answer = 404 \/ status answer = 500)%Z.




(** The routes served by one of the two handlers that test for the
    not-found body. *)
Definition is_lookup (rt : route) : bool :=
  match rt with
  | GetUser _ | GetOrder _ | GetOrdersStatus | GetOrdersHealth => true
  | _ => false
  end.

End Behaviour.

(** ** Sample data *)

Module Sample.
Import Js Gateway.

(** The body of the specification's example:
    [POST /orders {user_id: 1, product: "widget"}]. *)
Definition widget_order : value :=
  JObj [("user_id", JNum 1); ("product", JStr "widget")].

Definition axios_error (code : Z) (payload : value) : value :=
  JObj [("name", JStr "AxiosError"); ("status", JNum code)].

(** An order the order service's schema refuses: [user_id] is not
    positive. *)
Definition anonymous_order : value :=
  JObj [("user_id", JNum 0); ("product", JStr "widget")].

(** Backends that refuse every connection. *)
Definition refusing (c : circuit) (r : request) (w : unit)
  : option (http_result * unit) :=
  Some (NoResponse
          (JObj [("message", JStr "connect ECONNREFUSED 10.0.0.3:8003");
                 ("stack", JStr "Error: connect ECONNREFUSED at TCPConnectWrap")]),
        w).


(** Backends that are a script: their answers, in the order of the
    requests. *)
Definition scripted (c : circuit) (r : request) (script : list http_result)
  : option (http_result * list http_result) :=
  match script with
  | h :: rest => Some (h, rest)
  | [] => None
  end.

Definition joi_message (b : value) : string := "invalid".

Definition no_orders : OrderService.state :=
  {| OrderService.db := {| OrderModel.rows := []; OrderModel.next_id := 1; OrderModel.restart := 1 |};
     OrderService.cache := ∅ |}.

(** The order store after one order was placed and deleted again through
    the order router. *)
Definition emptied : OrderService.state :=
  snd (OrderRouter.delete_order 1 (snd (OrderRouter.post_order joi_message 1 "widget" no_orders))).

(** An inventory with [q] widgets. *)
Definition stocked (q : Z) : Deployment.world :=
  {| Deployment.management :=
       {| ManagementService.table :=
            [ {| ManagementModel.id := 1; ManagementModel.product := "widget";
                 ManagementModel.quantity := q |} ];
          ManagementService.cache := ∅ |};
     Deployment.orders := no_orders |}.

(** An inventory that does not track widgets. *)
Definition untracked : Deployment.world :=
  {| Deployment.management := {| ManagementService.table := []; ManagementService.cache := ∅ |};
     Deployment.orders := no_orders |}.

(** Every backend answers 200 with an empty list; the users breaker opened
    at time 0 and the clock stands at 1000. *)
Definition users_open : Guarded.world :=
  {| Guarded.clock := 1000;
     Guarded.breakers := fun c =>
       match c with
       | usersCircuit =>
           {| Breaker.current := Breaker.OPEN; Breaker.successes := 4;
              Breaker.failures := 6; Breaker.openedAt := 0; Breaker.trials := 0 |}
       | _ => Breaker.initial
       end;
     Guarded.backend := fun _ _ => HttpResponse 200 (JArr []);
     Guarded.invoked := [] |}.

(** [circuitOptions] for every breaker, with a minimum volume of 10 and one
    trial at a time. *)
Definition policy (c : circuit) : Breaker.policy := Breaker.circuitOptions 10 1.

(** Ten calls, 100 ms apart from time 0, six of them failures. *)
Definition ten_calls : list (Z * Breaker.verdict) :=
  [(0%Z, Breaker.Failure); (100%Z, Breaker.Success); (200%Z, Breaker.Failure);
   (300%Z, Breaker.Success); (400%Z, Breaker.Failure); (500%Z, Breaker.Success);
   (600%Z, Breaker.Failure); (700%Z, Breaker.Success); (800%Z, Breaker.Failure);
   (900%Z, Breaker.Failure)].

(** Two calls, 1000 ms and 3000 ms after time 900. *)
Definition later_calls : list (Z * Breaker.verdict) :=
  [(1900%Z, Breaker.Success); (3900%Z, Breaker.Failure)].

(** Whether a string consists of decimal digits. *)
Fixpoint all_digits (s : string) : bool :=
  match s with
  | EmptyString => true
  | String c r =>
      match digit_val 10 c with
      | Some _ => all_digits r
      | None => false
      end
  end.

(** A StringToNumber for the examples: it reads the strings of decimal
    digits, and the empty string as 0. *)
Definition decimal (s : string) : option Z :=
  if all_digits s
  then match s with
       | EmptyString => Some 0%Z
       | _ => digits 10 s None
       end
  else None.

(** Statements run against the empty order table: two inserts with a
    delete, a listing and an update between them. *)
Definition statements : list OrderModel.statement :=
  [OrderModel.Insert 1 "widget"; OrderModel.Delete 1; OrderModel.SelectAll;
   OrderModel.Insert 2 "gadget"; OrderModel.Update 1 "gizmo";
   OrderModel.Insert 3 "widget"].

(** An order store with two orders, none of them cached. *)
Definition two_orders : OrderService.state :=
  {| OrderService.db :=
       {| OrderModel.rows :=
            [ {| OrderModel.id := 1; OrderModel.user_id := 7;
                 OrderModel.product := "widget" |};
              {| OrderModel.id := 2; OrderModel.user_id := 9;
                 OrderModel.product := "gadget" |} ];
          OrderModel.next_id := 3; OrderModel.restart := 1 |};
     OrderService.cache := ∅ |}.

(** The same store after [GET /orders] and [GET /orders/1] were served. *)
Definition two_orders_read : OrderService.state :=
  snd (OrderRouter.get_order 1 (snd (OrderRouter.get_orders two_orders))).

(** The inventory with five widgets after [GET /product?product=widget]
    was served. *)
Definition stock_read : ManagementService.state :=
  snd (ManagementRouter.get_product "widget" (Deployment.management (stocked 5))).

(** An inventory with five widgets and two gadgets, the widgets read once. *)
Definition two_products : ManagementService.state :=
  snd (ManagementRouter.get_product "widget"
         {| ManagementService.table :=
              [ {| ManagementModel.id := 1; ManagementModel.product := "widget";
                   ManagementModel.quantity := 5 |};
                {| ManagementModel.id := 2; ManagementModel.product := "gadget";
                   ManagementModel.quantity := 2 |} ];
            ManagementService.cache := ∅ |}).

(** An email check for the examples: every string passes. *)
Definition email_ok (e : string) : bool := true.

(** A user store with one user, after the list and the user were read. *)
Definition one_user : UserService.state :=
  {| UserService.db :=
       {| UserModel.rows :=
            [ {| UserModel.id := 1; UserModel.email := "u1@example.org";
                 UserModel.name := "first" |} ];
          UserModel.next_id := 2; UserModel.restart := 1 |};
     UserService.cache := ∅ |}.

Definition one_user_read : UserService.state :=
  snd (UserRouter.get_user 1 (snd (UserRouter.get_users one_user))).

End Sample.

(** * Properties *)

Import Js Gateway.

(** Unfolds one handler step of [run]: the next [let!], [try]/[catch],
    [fire] or property read. *)
Ltac handler_step :=
  cbn [lift bind try_catch fire settle run send pass_through lookup_route].

(** Runs a handler forward, feeding it the facts in the context about the
    property reads and about how its [fire]s settle. *)
Ltac run_handler :=
  repeat (handler_step;
          match goal with
          | H : get _ _ = _ |- _ => rewrite H
          | H : parseInt _ = _ |- _ => rewrite H
          | H : ?s _ _ _ = Some _ |- context [?s _ _ _] => rewrite H
          end);
  handler_step.

(** ** The order-placement saga *)

Section Saga.

Context {W : Type} (settles : circuit -> request -> W -> option (outcome * W)).

(** The saga up to its branch on the observed quantity: with a quantity
    above zero the order is created and the decrement is fired, whatever
    the two calls resolve to. *)
Lemma post_orders_positive (w w1 w2 w3 : W)
    (reqBody product management q order decreased : value) (quantity : Z) :
  get reqBody "product" = Val product ->
  settles managementCircuit (inventory_check product) w
    = Some (Resolved management, w1) ->
  get management "quantity" = Val q ->
  parseInt q = Some quantity ->
  (0 < quantity)%Z ->
  settles ordersCircuit (order_creation reqBody) w1 = Some (Resolved order, w2) ->
  settles managementCircuit (inventory_decrement product quantity) w2
    = Some (Resolved decreased, w3) ->
  run settles (post_orders reqBody) w =
    Some (Val {| status := 201; body := order |}, w3,
          [(managementCircuit, inventory_check product);
           (ordersCircuit, order_creation reqBody);
           (managementCircuit, inventory_decrement product quantity)]).
Proof.
  intros Hp Hcheck Hq Hn Hpos Horder Hdec. unfold post_orders.
  run_handler. apply Z.ltb_lt in Hpos. rewrite Hpos.
  run_handler. reflexivity.
Qed.

(** C1 (evaluation of the code): when the inventory check observes the
    sentinel -1, the saga makes no call after the check, so no order is
    created and no decrement is issued, but the answer is 500 with body
    [{error: 'POST /orders error'}] and not 201 with an order: the branch
    reads [order], which is not bound there, and the throw is caught. *)
Theorem C1_untracked_product_answers_500 (w w1 : W)
    (reqBody product management q : value) :
  get reqBody "product" = Val product ->
  settles managementCircuit (inventory_check product) w
    = Some (Resolved management, w1) ->
  get management "quantity" = Val q ->
  parseInt q = Some (-1)%Z ->
  run settles (post_orders reqBody) w =
    Some (Val {| status := 500; body := JObj [("error", JStr "POST /orders error")] |},
          w1, [(managementCircuit, inventory_check product)]).
Proof.
  intros Hp Hcheck Hq Hn. unfold post_orders. run_handler. reflexivity.
Qed.

(** A management call that ends in the fallback has no [quantity]; the saga
    takes that for an empty stock. *)
Lemma post_orders_management_fallback (w w1 : W) (reqBody product : value) :
  get reqBody "product" = Val product ->
  settles managementCircuit (inventory_check product) w
    = Some (Resolved (fallback managementCircuit), w1) ->
  run settles (post_orders reqBody) w =
    Some (Val {| status := 400; body := JObj [("error", JStr "Product quantity is 0")] |},
          w1, [(managementCircuit, inventory_check product)]).
Proof.
  intros Hp Hcheck. unfold post_orders. run_handler. reflexivity.
Qed.

(** C9: when the inventory check observes quantity 0, the saga answers 400
    with body [{error: 'Product quantity is 0'}] and the only call made is
    the inventory check: neither the order creation nor the decrement is
    issued, and the world is as the check left it. *)
Theorem C9_zero_quantity_answers_400 (w w1 : W)
    (reqBody product management q : value) :
  get reqBody "product" = Val product ->
  settles managementCircuit (inventory_check product) w
    = Some (Resolved management, w1) ->
  get management "quantity" = Val q ->
  parseInt q = Some 0%Z ->
  run settles (post_orders reqBody) w =
    Some (Val {| status := 400; body := JObj [("error", JStr "Product quantity is 0")] |},
          w1, [(managementCircuit, inventory_check product)]).
Proof.
  intros Hp Hcheck Hq Hn. unfold post_orders. run_handler. reflexivity.
Qed.

End Saga.

(** ** Calls that fail *)

Lemma action_failing (axios_error : Z -> value -> value) (h : http_result) :
  failing h = true -> exists reason, action axios_error h = Rejected reason.
Proof.
  destruct h as [code payload | error]; cbn [failing action]; [| eauto].
  intros Hfail. apply negb_true_iff in Hfail. rewrite Hfail.
  unfold validateStatus in Hfail. apply orb_false_iff in Hfail as [_ ->]. eauto.
Qed.


Section FailedCalls.

Context {W : Type} (axios_error : Z -> value -> value).
Context (serve : circuit -> request -> W -> option (http_result * W)).

(** A call the backend fails resolves to the breaker's fallback. *)
Lemma fires_failing (c : circuit) (r : request) (w w' : W) (h : http_result) :
  serve c r w = Some (h, w') ->
  failing h = true ->
  fires axios_error serve c r w = Some (Resolved (fallback c), w').
Proof.
  intros Hserve Hfail. unfold fires. rewrite Hserve.
  destruct (action_failing axios_error h Hfail) as [reason ->]. reflexivity.
Qed.

(** A call the backend answers with a status that passes resolves to the
    body of the answer. *)
Lemma fires_passing (c : circuit) (r : request) (w w' : W) (code : Z)
    (payload : value) :
  serve c r w = Some (HttpResponse code payload, w') ->
  validateStatus code = true ->
  fires axios_error serve c r w = Some (Resolved payload, w').
Proof.
  intros Hserve Hcode. unfold fires. rewrite Hserve.
  cbn [action]. rewrite Hcode. reflexivity.
Qed.

(** Whatever the backend answers, the promise of [fire] resolves. *)
Lemma fires_resolves (c : circuit) (r : request) (w w' : W) (h : http_result) :
  serve c r w = Some (h, w') ->
  exists v, fires axios_error serve c r w = Some (Resolved v, w').
Proof.
  intros Hserve. unfold fires. rewrite Hserve.
  destruct (action axios_error h); cbn [guard]; eauto.
Qed.

(** C2 (amended): when the inventory check observes a quantity above zero
    and the backend fails the order-creation call (no response, or a status
    that is neither 2xx nor 404), the call resolves to the orders breaker's
    fallback and the saga does not abort: it issues the decrement to the
    observed quantity minus one, whatever that call is answered, and
    answers 201 with the fallback as body. *)
Theorem C2_failed_order_creation_still_decrements (w w1 w2 w3 : W)
    (reqBody product management q : value) (quantity code : Z)
    (creation decrement : http_result) :
  get reqBody "product" = Val product ->
  serve managementCircuit (inventory_check product) w
    = Some (HttpResponse code management, w1) ->
  validateStatus code = true ->
  get management "quantity" = Val q ->
  parseInt q = Some quantity ->
  (0 < quantity)%Z ->
  serve ordersCircuit (order_creation reqBody) w1 = Some (creation, w2) ->
  failing creation = true ->
  serve managementCircuit (inventory_decrement product quantity) w2
    = Some (decrement, w3) ->
  run (fires axios_error serve) (post_orders reqBody) w =
    Some (Val {| status := 201; body := fallback ordersCircuit |}, w3,
          [(managementCircuit, inventory_check product);
           (ordersCircuit, order_creation reqBody);
           (managementCircuit,
            submit PUT "/management/product"
              (JObj [("product", product); ("quantity", JNum (quantity - 1))]))]).
Proof.
  intros Hp Hcheck Hcode Hq Hn Hpos Horder Hfail Hdec.
  destruct (fires_resolves _ _ _ _ _ Hdec) as [decreased Hdecreased].
  apply (post_orders_positive (fires axios_error serve)
           w w1 w2 w3 reqBody product management q (fallback ordersCircuit)
           decreased quantity); try assumption.
  - apply (fires_passing _ _ _ _ code); assumption.
  - apply (fires_failing _ _ _ _ creation); assumption.
Qed.

End FailedCalls.

(** C1 at the specification's example: the management backend holds no row
    for "widget", answers the sentinel, and the gateway answers 500 after
    the one inventory read. *)
Lemma C1_untracked_widget :
  run (Deployment.fire Sample.axios_error Sample.joi_message)
      (post_orders Sample.widget_order) Sample.untracked =
    Some (Val {| status := 500; body := JObj [("error", JStr "POST /orders error")] |},
          Sample.untracked,
          [(managementCircuit, inventory_check (JStr "widget"))]).
Proof.
  apply (C1_untracked_product_answers_500
           (Deployment.fire Sample.axios_error Sample.joi_message)
           Sample.untracked Sample.untracked Sample.widget_order
           (JStr "widget") (JObj [("quantity", JNum (-1))]) (JNum (-1)));
    reflexivity.
Defined.

(** C2 as stated fails: the inventory check observes 5, the order-creation
    call ends in the orders breaker's fallback, and the saga still fires the
    decrement to 4 and answers 201 with the fallback as body. *)
Lemma C2_fallback_is_not_an_abort :
  run replay (post_orders Sample.widget_order)
      [Resolved (JObj [("product", JStr "widget"); ("quantity", JNum 5)]);
       Resolved (fallback ordersCircuit);
       Resolved (JObj [("id", JNum 1); ("product", JStr "widget"); ("quantity", JNum 4)])] =
    Some (Val {| status := 201; body := fallback ordersCircuit |}, [],
          [(managementCircuit, inventory_check (JStr "widget"));
           (ordersCircuit, order_creation Sample.widget_order);
           (managementCircuit, inventory_decrement (JStr "widget") 5)]).
Proof. reflexivity. Qed.

(** The amended C2 against the backends: five widgets in stock, an order
    the order service refuses with 400.  No order is stored, four widgets
    are left, and the answer is 201. *)
Lemma C2_refused_order_takes_a_widget :
  run (Deployment.fire Sample.axios_error Sample.joi_message)
      (post_orders Sample.anonymous_order) (Sample.stocked 5) =
    Some (Val {| status := 201; body := fallback ordersCircuit |},
          {| Deployment.management :=
               {| ManagementService.table :=
                    [ {| ManagementModel.id := 1; ManagementModel.product := "widget";
                         ManagementModel.quantity := 4 |} ];
                  ManagementService.cache := ∅ |};
             Deployment.orders := Sample.no_orders |},
          [(managementCircuit, inventory_check (JStr "widget"));
           (ordersCircuit, order_creation Sample.anonymous_order);
           (managementCircuit,
            submit PUT "/management/product"
              (JObj [("product", JStr "widget"); ("quantity", JNum (5 - 1))]))]).
Proof.
  apply (C2_failed_order_creation_still_decrements Sample.axios_error
           (Deployment.serve Sample.joi_message)
           (Sample.stocked 5)
           {| Deployment.management :=
                {| ManagementService.table :=
                     [ {| ManagementModel.id := 1; ManagementModel.product := "widget";
                          ManagementModel.quantity := 5 |} ];
                   ManagementService.cache :=
                     {[ "management:widget" := ManagementModel.Single "widget" 5 ]} |};
              Deployment.orders := Sample.no_orders |}
           {| Deployment.management :=
                {| ManagementService.table :=
                     [ {| ManagementModel.id := 1; ManagementModel.product := "widget";
                          ManagementModel.quantity := 5 |} ];
                   ManagementService.cache :=
                     {[ "management:widget" := ManagementModel.Single "widget" 5 ]} |};
              Deployment.orders := Sample.no_orders |}
           {| Deployment.management :=
                {| ManagementService.table :=
                     [ {| ManagementModel.id := 1; ManagementModel.product := "widget";
                          ManagementModel.quantity := 4 |} ];
                   ManagementService.cache := ∅ |};
              Deployment.orders := Sample.no_orders |}
           Sample.anonymous_order (JStr "widget")
           (JObj [("product", JStr "widget"); ("quantity", JNum 5)]) (JNum 5)
           5 200
           (HttpResponse 400
              (JObj [("error", JStr (Sample.joi_message Sample.anonymous_order))]))
           (HttpResponse 200
              (JObj [("id", JNum 1); ("product", JStr "widget"); ("quantity", JNum 4)])));
    first [reflexivity | lia | vm_compute; reflexivity].
Defined.

(** C9 at the specification's example: no widget left in stock. *)
Lemma C9_widget_out_of_stock :
  run (Deployment.fire Sample.axios_error Sample.joi_message)
      (post_orders Sample.widget_order) (Sample.stocked 0) =
    Some (Val {| status := 400; body := JObj [("error", JStr "Product quantity is 0")] |},
          {| Deployment.management :=
               {| ManagementService.table := ManagementService.table (Deployment.management (Sample.stocked 0));
                  ManagementService.cache := {[ "management:widget" := ManagementModel.Single "widget" 0 ]} |};
             Deployment.orders := Sample.no_orders |},
          [(managementCircuit, inventory_check (JStr "widget"))]).
Proof.
  apply (C9_zero_quantity_answers_400
           (Deployment.fire Sample.axios_error Sample.joi_message)
           (Sample.stocked 0) _ Sample.widget_order
           (JStr "widget") (JObj [("product", JStr "widget"); ("quantity", JNum 0)]) (JNum 0));
    reflexivity.
Defined.

(** ** The aggregation endpoint *)

Lemma get_readable (order : value) (k : string) :
  readable order -> exists v, get order k = Val v.
Proof.
  intros [Hu Hn]. destruct order; cbn; eauto; congruence.
Qed.

Lemma filter_items_readable (tonum : string -> option Z) (userId : string)
    (l : list value) :
  Forall readable l -> exists kept, filter_items tonum userId l = Val kept.
Proof.
  induction 1 as [| order rest Hr _ [kept IH]]; cbn [filter_items].
  - eexists; reflexivity.
  - destruct (get_readable order "user_id" Hr) as [uid ->].
    rewrite IH. eexists; reflexivity.
Qed.

Lemma filter_orders_not_a_list (tonum : string -> option Z) (userId : string)
    (v : value) :
  (forall l, v <> JArr l) -> exists e, filter_orders tonum userId v = Err e.
Proof.
  intros Hv. destruct v; cbn; eauto. destruct (Hv items eq_refl).
Qed.

Section Details.

Context {W : Type} (settles : circuit -> request -> W -> option (outcome * W)).
Context (StringToNumber : string -> option Z).

(** C4 (amended): when the promise of the user lookup or of the order list
    rejects, or the order list resolves to something that is not a list (as
    the orders breaker's fallback is), the answer is 500 with body
    [{error: 'Internal server error'}]: nothing of the user or of the orders
    is returned. *)
Theorem C4_failed_call_answers_500 (w w1 w2 : W) (userId : string)
    (user orders : outcome) :
  settles usersCircuit (fetch ("/users/" +:+ userId)) w = Some (user, w1) ->
  settles ordersCircuit (fetch "/orders") w1 = Some (orders, w2) ->
  (exists reason, user = Rejected reason)
  \/ (exists reason, orders = Rejected reason)
  \/ (exists v, orders = Resolved v /\ forall l, v <> JArr l) ->
  run settles (get_user_details StringToNumber userId) w =
    Some (Val {| status := 500; body := JObj [("error", JStr "Internal server error")] |},
          w2,
          [(usersCircuit, fetch ("/users/" +:+ userId));
           (ordersCircuit, fetch "/orders")]).
Proof.
  intros Hu Ho Hfail. unfold get_user_details. handler_step.
  rewrite Hu. handler_step. rewrite Ho.
  destruct Hfail as [[reason ->] | [[reason ->] | [v [-> Hv]]]].
  - reflexivity.
  - destruct user; reflexivity.
  - destruct (filter_orders_not_a_list StringToNumber userId v Hv) as [e He].
    destruct user; handler_step; [rewrite He |]; reflexivity.
Qed.

(** C5 (amended): when the user lookup resolves to the not-found body and
    the order list resolves to a list of objects, the answer is 404 with the
    not-found body; the orders do not appear in it. *)
Theorem C5_user_not_found_answers_404 (w w1 w2 : W) (userId : string)
    (user : value) (orders : list value) :
  settles usersCircuit (fetch ("/users/" +:+ userId)) w = Some (Resolved user, w1) ->
  settles ordersCircuit (fetch "/orders") w1 = Some (Resolved (JArr orders), w2) ->
  get user "error" = Val (JStr "User not found") ->
  Forall readable orders ->
  run settles (get_user_details StringToNumber userId) w =
    Some (Val {| status := 404; body := user |}, w2,
          [(usersCircuit, fetch ("/users/" +:+ userId));
           (ordersCircuit, fetch "/orders")]).
Proof.
  intros Hu Ho He Hread. unfold get_user_details. handler_step.
  rewrite Hu. handler_step. rewrite Ho. handler_step.
  unfold filter_orders.
  destruct (filter_items_readable StringToNumber userId orders Hread) as [kept ->].
  handler_step. rewrite He. reflexivity.
Qed.

End Details.

(** C4 as stated fails: the user lookup ends in the users breaker's
    fallback, the order list resolves to a list, and the answer is 200 with
    the fallback as the [user] of the composite. *)
Lemma C4_degraded_user_is_returned :
  run replay (get_user_details Sample.decimal "7")
      [Resolved (fallback usersCircuit);
       Resolved (JArr [JObj [("id", JNum 1); ("user_id", JNum 7); ("product", JStr "widget")];
                       JObj [("id", JNum 2); ("user_id", JNum 9); ("product", JStr "gadget")]])] =
    Some (Val {| status := 200;
                 body := JObj [("user", fallback usersCircuit);
                               ("orders",
                                JArr [JObj [("id", JNum 1); ("user_id", JNum 7);
                                            ("product", JStr "widget")]])] |},
          [],
          [(usersCircuit, fetch "/users/7"); (ordersCircuit, fetch "/orders")]).
Proof. reflexivity. Qed.

(** The amended C4 when the order list ends in the orders breaker's
    fallback. *)
Lemma C4_orders_breaker_fallback :
  run replay (get_user_details Sample.decimal "7")
      [Resolved (JObj [("email", JStr "u7@example.org"); ("name", JStr "seven")]);
       Resolved (fallback ordersCircuit)] =
    Some (Val {| status := 500; body := JObj [("error", JStr "Internal server error")] |},
          [],
          [(usersCircuit, fetch "/users/7"); (ordersCircuit, fetch "/orders")]).
Proof.
  apply (C4_failed_call_answers_500 replay Sample.decimal
           [Resolved (JObj [("email", JStr "u7@example.org"); ("name", JStr "seven")]);
            Resolved (fallback ordersCircuit)]
           [Resolved (fallback ordersCircuit)] [] "7"
           (Resolved (JObj [("email", JStr "u7@example.org"); ("name", JStr "seven")]))
           (Resolved (fallback ordersCircuit)));
    [reflexivity | reflexivity |].
  right; right. exists (fallback ordersCircuit). split; [reflexivity | discriminate].
Defined.

(** C5 as stated fails: the user lookup resolves to the not-found body; when
    the order list ends in the orders breaker's fallback, and likewise when
    its promise rejects, the answer is 500, not 404. *)
Lemma C5_order_list_failure_wins :
  run replay (get_user_details Sample.decimal "7")
      [Resolved (JObj [("error", JStr "User not found")]);
       Resolved (fallback ordersCircuit)] =
    Some (Val {| status := 500; body := JObj [("error", JStr "Internal server error")] |},
          [],
          [(usersCircuit, fetch "/users/7"); (ordersCircuit, fetch "/orders")])
  /\ run replay (get_user_details Sample.decimal "7")
      [Resolved (JObj [("error", JStr "User not found")]);
       Rejected (JStr "ECONNREFUSED")] =
    Some (Val {| status := 500; body := JObj [("error", JStr "Internal server error")] |},
          [],
          [(usersCircuit, fetch "/users/7"); (ordersCircuit, fetch "/orders")]).
Proof. split; reflexivity. Qed.

(** The amended C5 at an unknown user 7 while the order list holds an
    order. *)
Lemma C5_unknown_user_with_orders :
  run replay (get_user_details Sample.decimal "7")
      [Resolved (JObj [("error", JStr "User not found")]);
       Resolved (JArr [JObj [("id", JNum 1); ("user_id", JNum 7); ("product", JStr "widget")]])] =
    Some (Val {| status := 404; body := JObj [("error", JStr "User not found")] |},
          [],
          [(usersCircuit, fetch "/users/7"); (ordersCircuit, fetch "/orders")]).
Proof.
  apply (C5_user_not_found_answers_404 replay Sample.decimal
           [Resolved (JObj [("error", JStr "User not found")]);
            Resolved (JArr [JObj [("id", JNum 1); ("user_id", JNum 7);
                                  ("product", JStr "widget")]])]
           [Resolved (JArr [JObj [("id", JNum 1); ("user_id", JNum 7);
                                  ("product", JStr "widget")]])]
           [] "7"
           (JObj [("error", JStr "User not found")])
           [JObj [("id", JNum 1); ("user_id", JNum 7); ("product", JStr "widget")]]);
    [reflexivity | reflexivity | reflexivity |].
  repeat constructor; discriminate.
Defined.

(** ** The breaker *)

Section BreakerFacts.

Import Breaker.
Variable p : policy.

Lemma tripped_spec (s : state) :
  tripped p s = true <->
  (volumeThreshold p <= samples s)%Z
  /\ (errorThresholdPercentage p * samples s <= 100 * failures s)%Z.
Proof.
  unfold tripped. rewrite andb_true_iff, !Z.leb_le. reflexivity.
Qed.

(** While OPEN and within the reset interval, [execute] short-circuits and
    leaves the state alone. *)
Lemma execute_open (now : Z) (v : verdict) (s : state) :
  current s = OPEN ->
  (now - openedAt s <= resetTimeout p)%Z ->
  execute p now v s = (ShortCircuit, s).
Proof.
  intros Hopen Hin. unfold execute. rewrite Hopen.
  destruct (Z.ltb_spec (resetTimeout p) (now - openedAt s)); [lia | reflexivity].
Qed.

Lemma execute_all_open (calls : list (Z * verdict)) (s : state) :
  current s = OPEN ->
  Forall (fun c => (fst c - openedAt s <= resetTimeout p)%Z) calls ->
  execute_all p calls s = (repeat ShortCircuit (length calls), s).
Proof.
  intros Hopen Hin. induction Hin as [| [now v] rest Hnow _ IH]; cbn [execute_all].
  - reflexivity.
  - rewrite (execute_open now v s Hopen Hnow), IH. reflexivity.
Qed.

Lemma invocations_repeat (n : nat) : invocations (repeat ShortCircuit n) = 0%nat.
Proof. induction n as [| n IH]; [reflexivity | exact IH]. Qed.

(** An outcome that leaves a window with the minimum volume and a failure
    ratio at the threshold opens the breaker at that instant. *)
Lemma tripping_outcome_opens (now : Z) (v : verdict) (s : state) :
  current s = CLOSED ->
  tripped p (count v s) = true ->
  execute p now v s
  = (Attempt,
     {| current := OPEN; successes := successes (count v s);
        failures := failures (count v s); openedAt := now;
        trials := trials (count v s) |}).
Proof.
  intros Hclosed Htrip. unfold execute, closed_outcome.
  rewrite Hclosed, Htrip. reflexivity.
Qed.

Lemma settled_initial : settled p initial.
Proof. split; [discriminate |]. intros _ H. unfold samples in H. cbn in H. lia. Qed.

Lemma settled_execute (now : Z) (v : verdict) (s : state) :
  settled p s -> settled p (snd (execute p now v s)).
Proof.
  intros [Hphase Hwindow]. unfold execute.
  destruct (current s) eqn:Hcur.
  - cbn [snd]. unfold closed_outcome.
    destruct (tripped p (count v s)) eqn:Htrip.
    + split; cbn; [discriminate | discriminate].
    + split; [destruct v; cbn; rewrite Hcur; discriminate |].
      intros _ _. exact Htrip.
  - destruct (resetTimeout p <? now - openedAt s)%Z; cbn [snd].
    + destruct v; (split; cbn; [discriminate |]);
        [intros _ H; unfold samples in H; cbn in H; lia | discriminate].
    + split; [rewrite Hcur; discriminate | rewrite Hcur; discriminate].
  - congruence.
Qed.

Lemma execute_all_cons (now : Z) (v : verdict) (rest : list (Z * verdict))
    (s : state) :
  snd (execute_all p ((now, v) :: rest) s)
  = snd (execute_all p rest (snd (execute p now v s))).
Proof.
  cbn [execute_all]. destruct (execute p now v s) as [d s']. cbn [snd].
  destruct (execute_all p rest s') as [ds s'']. reflexivity.
Qed.

Lemma settled_execute_all (calls : list (Z * verdict)) (s : state) :
  settled p s -> settled p (snd (execute_all p calls s)).
Proof.
  revert s. induction calls as [| [now v] rest IH]; intros s Hs.
  - exact Hs.
  - rewrite execute_all_cons. apply IH, settled_execute, Hs.
Qed.

(** C3: for every policy and every run of the breaker from its initial
    state, once the window holds at least the minimum sample volume of
    outcomes with a failure ratio at or above the threshold, the breaker is
    OPEN, and every later [execute] no more than the reset interval after
    the open timestamp short-circuits: it returns the fallback without
    invoking the downstream, and the breaker stays as it is. *)
Theorem C3_breaker_opens_and_short_circuits (calls later : list (Z * verdict)) :
  (0 < samples (snd (execute_all p calls initial)))%Z ->
  (volumeThreshold p <= samples (snd (execute_all p calls initial)))%Z ->
  (errorThresholdPercentage p * samples (snd (execute_all p calls initial))
   <= 100 * failures (snd (execute_all p calls initial)))%Z ->
  Forall (fun c => (fst c - openedAt (snd (execute_all p calls initial))
                    <= resetTimeout p)%Z) later ->
  current (snd (execute_all p calls initial)) = OPEN
  /\ execute_all p later (snd (execute_all p calls initial))
     = (repeat ShortCircuit (length later), snd (execute_all p calls initial))
  /\ invocations (fst (execute_all p later (snd (execute_all p calls initial))))
     = 0%nat.
Proof.
  intros Hsome Hvol Hratio Hlater.
  destruct (settled_execute_all calls initial settled_initial) as [Hphase Hwindow].
  assert (Htrip : tripped p (snd (execute_all p calls initial)) = true)
    by (apply tripped_spec; split; assumption).
  assert (Hopen : current (snd (execute_all p calls initial)) = OPEN).
  { destruct (current (snd (execute_all p calls initial))) eqn:Hcur.
    - rewrite (Hwindow eq_refl Hsome) in Htrip. discriminate.
    - reflexivity.
    - congruence. }
  split; [exact Hopen |].
  rewrite (execute_all_open later _ Hopen Hlater).
  split; [reflexivity | apply invocations_repeat].
Qed.

End BreakerFacts.

(** The specification's example: threshold 50%, minimum volume 10, reset
    interval 3000 ms; ten calls with six failures open the breaker, and the
    calls made 1000 ms and 3000 ms later are short-circuited. *)
Lemma C3_six_failures_of_ten :
  Breaker.current
    (snd (Breaker.execute_all (Breaker.circuitOptions 10 1) Sample.ten_calls
            Breaker.initial)) = Breaker.OPEN
  /\ Breaker.execute_all (Breaker.circuitOptions 10 1) Sample.later_calls
       (snd (Breaker.execute_all (Breaker.circuitOptions 10 1) Sample.ten_calls
               Breaker.initial))
     = (repeat Breaker.ShortCircuit (length Sample.later_calls),
        snd (Breaker.execute_all (Breaker.circuitOptions 10 1) Sample.ten_calls
               Breaker.initial))
  /\ Breaker.invocations
       (fst (Breaker.execute_all (Breaker.circuitOptions 10 1) Sample.later_calls
               (snd (Breaker.execute_all (Breaker.circuitOptions 10 1)
                       Sample.ten_calls Breaker.initial))))
     = 0%nat.
Proof.
  apply (C3_breaker_opens_and_short_circuits (Breaker.circuitOptions 10 1)
           Sample.ten_calls Sample.later_calls).
  - vm_compute. reflexivity.
  - vm_compute. discriminate.
  - vm_compute. discriminate.
  - repeat constructor; vm_compute; discriminate.
Defined.

(** The same breaker once the reset interval has passed: the next call is
    attempted, and its success closes the breaker with an empty window. *)
Lemma trial_after_reset_interval :
  Breaker.execute (Breaker.circuitOptions 10 1) 3901 Breaker.Success
    {| Breaker.current := Breaker.OPEN; Breaker.successes := 4;
       Breaker.failures := 6; Breaker.openedAt := 900; Breaker.trials := 0 |}
  = (Breaker.Attempt,
     {| Breaker.current := Breaker.CLOSED; Breaker.successes := 0;
        Breaker.failures := 0; Breaker.openedAt := 900; Breaker.trials := 0 |}).
Proof. reflexivity. Qed.

(** ** Routes behind an open breaker *)

Section OpenBreaker.

Context (axios_error : Z -> value -> value) (policy : circuit -> Breaker.policy).

(** A [fire] against a breaker that is OPEN and within its reset interval
    resolves to the fallback; no call reaches a backend and no breaker
    changes. *)
Lemma fire_open (c : circuit) (r : request) (w : Guarded.world) :
  Breaker.current (Guarded.breakers w c) = Breaker.OPEN ->
  (Guarded.clock w - Breaker.openedAt (Guarded.breakers w c)
   <= Breaker.resetTimeout (policy c))%Z ->
  exists w',
    Guarded.fire axios_error policy c r w = Some (Resolved (fallback c), w')
    /\ Guarded.invoked w' = Guarded.invoked w
    /\ forall c', Guarded.breakers w' c' = Guarded.breakers w c'.
Proof.
  intros Hopen Hin. unfold Guarded.fire.
  rewrite (execute_open (policy c) _ _ _ Hopen Hin).
  eexists. split; [reflexivity |]. split; [reflexivity |].
  intros c'. cbn. destruct (Guarded.circuit_eqb c' c) eqn:E; [| reflexivity].
  destruct c', c; try discriminate E; reflexivity.
Qed.

(** C6 (amended): on every route that fires one breaker, when that breaker
    is OPEN and within its reset interval, the one [fire] reaches no backend
    and the answer carries the breaker's fallback, which names the
    unavailable service, as its body; its status is the route's success
    status (200, or 201 on [POST /users] and [POST /management]). *)
Theorem C6_open_breaker_answers_with_the_fallback
    (StringToNumber : string -> option Z) (rt : route)
    (c : circuit) (r : request) (ok : Z) (w : Guarded.world) :
  plain rt = Some (c, r, ok) ->
  Breaker.current (Guarded.breakers w c) = Breaker.OPEN ->
  (Guarded.clock w - Breaker.openedAt (Guarded.breakers w c)
   <= Breaker.resetTimeout (policy c))%Z ->
  exists w',
    run (Guarded.fire axios_error policy) (handler StringToNumber rt) w
      = Some (Val {| status := ok; body := fallback c |}, w', [(c, r)])
    /\ (ok = 200 \/ ok = 201)%Z
    /\ Guarded.invoked w' = Guarded.invoked w
    /\ forall c', Guarded.breakers w' c' = Guarded.breakers w c'.
Proof.
  intros Hplain Hopen Hin.
  destruct (fire_open c r w Hopen Hin) as [w' [Hfire [Hinv Hbr]]].
  exists w'.
  destruct rt; cbn [plain] in Hplain; inversion Hplain; subst c r ok; clear Hplain;
    cbn [handler]; unfold get_management_product;
    (split; [handler_step; rewrite Hfire; reflexivity
            | split; [auto | split; assumption]]).
Qed.

End OpenBreaker.

(** C6 as stated fails: with the users breaker OPEN since 1000 ms, [GET
    /users/7] reaches no backend and is answered with the users fallback
    under status 200, not 500. *)
Lemma C6_open_users_breaker_answers_200 :
  match run (Guarded.fire Sample.axios_error Sample.policy)
            (handler Sample.decimal (GetUser "7")) Sample.users_open with
  | Some (Val answer, w', calls) =>
      status answer = 200%Z
      /\ status answer <> 500%Z
      /\ body answer = JObj [("error", JStr "Users service temporarily unavailable")]
      /\ calls = [(usersCircuit, fetch "/users/7")]
      /\ Guarded.invoked w' = []
  | _ => False
  end.
Proof. vm_compute. repeat split; discriminate. Qed.

(** The amended C6 on [POST /users] with the users breaker OPEN: 201 with
    the fallback. *)
Lemma C6_open_users_breaker_on_post :
  exists w',
    run (Guarded.fire Sample.axios_error Sample.policy)
        (handler Sample.decimal (PostUsers (JObj [("name", JStr "seven")])))
        Sample.users_open
      = Some (Val {| status := 201; body := fallback usersCircuit |}, w',
              [(usersCircuit, submit POST "/users" (JObj [("name", JStr "seven")]))])
    /\ (201 = 200 \/ 201 = 201)%Z
    /\ Guarded.invoked w' = Guarded.invoked Sample.users_open
    /\ forall c', Guarded.breakers w' c' = Guarded.breakers Sample.users_open c'.
Proof.
  apply (C6_open_breaker_answers_with_the_fallback Sample.axios_error Sample.policy
           Sample.decimal (PostUsers (JObj [("name", JStr "seven")]))
           usersCircuit (submit POST "/users" (JObj [("name", JStr "seven")])) 201
           Sample.users_open).
  - reflexivity.
  - reflexivity.
  - vm_compute. discriminate.
Defined.

(** ** The inventory backend *)

(** The first row the update returns carries the product and the new
    quantity. *)
Lemma decreased_row (p : string) (q : Z) (t : list ManagementModel.row)
    (r : ManagementModel.row) :
  List.find (ManagementModel.named p) (map (ManagementModel.set_quantity p q) t) = Some r ->
  ManagementModel.product r = p /\ ManagementModel.quantity r = q.
Proof.
  induction t as [| a t IH]; cbn [map List.find]; [discriminate |].
  destruct (ManagementModel.named p a) eqn:Ha.
  - assert (Hset : ManagementModel.set_quantity p q a
                   = {| ManagementModel.id := ManagementModel.id a;
                        ManagementModel.product := ManagementModel.product a;
                        ManagementModel.quantity := q |})
      by (unfold ManagementModel.set_quantity; rewrite Ha; reflexivity).
    rewrite Hset. unfold ManagementModel.named at 1. cbn [ManagementModel.product].
    unfold ManagementModel.named in Ha. rewrite Ha.
    intros [= <-]. cbn. split; [apply String.eqb_eq, Ha | reflexivity].
  - assert (Hset : ManagementModel.set_quantity p q a = a)
      by (unfold ManagementModel.set_quantity; rewrite Ha; reflexivity).
    rewrite Hset, Ha. exact IH.
Qed.

(** After a [PUT /product] answered 200, the product has no cached entry
    and its row carries the quantity that was put. *)
Lemma put_product_200 (joi_message : value -> string) (p : string) (q : Z)
    (st st' : ManagementService.state) (payload : value) :
  ManagementRouter.put_product joi_message p q st = ((200%Z, payload), st') ->
  ManagementService.cache st' !! ManagementService.key p = None
  /\ ManagementModel.getByProduct p (ManagementService.table st')
     = Some (ManagementModel.Single p q).
Proof.
  unfold ManagementRouter.put_product, ManagementService.decreaseQuantity,
    ManagementModel.decreaseQuantity.
  destruct (ManagementRouter.updateSchema p q); [| intros [=]].
  destruct (List.find (ManagementModel.named p) (map (ManagementModel.set_quantity p q)
                                              (ManagementService.table st)))
    as [r |] eqn:Hfind; [| intros [=]].
  intros [= _ <-]. cbn [ManagementService.cache ManagementService.table]. split.
  - apply lookup_delete_None. right.
    apply lookup_delete_None. right.
    apply lookup_delete_eq.
  - unfold ManagementModel.getByProduct. rewrite Hfind.
    destruct (decreased_row p q _ r Hfind) as [-> ->]. reflexivity.
Qed.

(** A [GET /product] that misses the cache answers the row. *)
Lemma get_product_from_table (p : string) (q : Z) (st : ManagementService.state) :
  ManagementService.cache st !! ManagementService.key p = None ->
  ManagementModel.getByProduct p (ManagementService.table st) = Some (ManagementModel.Single p q) ->
  ManagementRouter.get_product p st
  = ((200%Z, JObj [("product", JStr p); ("quantity", JNum q)]),
     {| ManagementService.table := ManagementService.table st;
        ManagementService.cache :=
          <[ManagementService.key p := ManagementModel.Single p q]> (ManagementService.cache st) |}).
Proof.
  intros Hmiss Hrow. unfold ManagementRouter.get_product, ManagementService.getManagementByProduct.
  rewrite Hmiss, Hrow. reflexivity.
Qed.

(** ** The saga against the backends *)

Section Placement.

Context (axios_error : Z -> value -> value) (joi_message : value -> string).

Lemma fire_resolves (c : circuit) (r : request) (w w' : Deployment.world)
    (code : Z) (payload : value) :
  Deployment.serve joi_message c r w = Some (HttpResponse code payload, w') ->
  validateStatus code = true ->
  Deployment.fire axios_error joi_message c r w = Some (Resolved payload, w').
Proof.
  intros Hserve Hcode. unfold Deployment.fire, fires. rewrite Hserve.
  unfold action. rewrite Hcode. reflexivity.
Qed.

(** C8: for a product whose name is made of unreserved characters (so
    that the backend reads the name the gateway interpolated into the URL),
    when the inventory check observes a quantity above zero and the
    backends answer the order creation with 201 and the inventory update
    with 200, the saga answers 201 with the created order as body, the
    update it issued carries the observed quantity minus one, and a
    following inventory read of the product yields that quantity. *)
Theorem C8_order_placed_and_inventory_decremented
    (w w1 w2 w3 : Deployment.world) (reqBody : value) (p : string)
    (management q order updated : value) (quantity : Z) :
  get reqBody "product" = Val (JStr p) ->
  url_plain p = true ->
  Deployment.serve joi_message managementCircuit (inventory_check (JStr p)) w
    = Some (HttpResponse 200 management, w1) ->
  get management "quantity" = Val q ->
  parseInt q = Some quantity ->
  (0 < quantity)%Z ->
  Deployment.serve joi_message ordersCircuit (order_creation reqBody) w1
    = Some (HttpResponse 201 order, w2) ->
  Deployment.serve joi_message managementCircuit
      (inventory_decrement (JStr p) quantity) w2
    = Some (HttpResponse 200 updated, w3) ->
  run (Deployment.fire axios_error joi_message) (post_orders reqBody) w
    = Some (Val {| status := 201; body := order |}, w3,
            [(managementCircuit, inventory_check (JStr p));
             (ordersCircuit, order_creation reqBody);
             (managementCircuit,
              submit PUT "/management/product"
                (JObj [("product", JStr p); ("quantity", JNum (quantity - 1))]))])
  /\ exists w4,
       Deployment.serve joi_message managementCircuit (inventory_check (JStr p)) w3
       = Some (HttpResponse 200
                 (JObj [("product", JStr p); ("quantity", JNum (quantity - 1))]),
               w4).
Proof.
  intros Hp Hplain Hcheck Hq Hn Hpos Horder Hdec. split.
  - apply (post_orders_positive (Deployment.fire axios_error joi_message)
             w w1 w2 w3 reqBody (JStr p) management q order updated quantity);
      try assumption.
    + apply (fire_resolves _ _ _ _ 200%Z); [assumption | reflexivity].
    + apply (fire_resolves _ _ _ _ 201%Z); [assumption | reflexivity].
    + apply (fire_resolves _ _ _ _ 200%Z); [assumption | reflexivity].
  - unfold Deployment.serve in Hdec. cbn in Hdec.
    destruct (ManagementRouter.put_product joi_message p (quantity - 1)
                (Deployment.management w2)) as [[code payload] m'] eqn:Hput.
    injection Hdec as Hcode _ Hw3. subst code w3.
    destruct (put_product_200 joi_message p (quantity - 1) _ _ _ Hput) as [Hmiss Hrow].
    unfold Deployment.serve. cbn. rewrite Hplain. cbn.
    rewrite (get_product_from_table p (quantity - 1) m' Hmiss Hrow).
    eexists. reflexivity.
Qed.

End Placement.

(** The specification's example: five widgets in stock, one ordered, four
    left. *)
Lemma C8_five_widgets_then_four :
  run (Deployment.fire Sample.axios_error Sample.joi_message)
      (post_orders Sample.widget_order) (Sample.stocked 5)
    = Some (Val {| status := 201;
                   body := JObj [("id", JNum 1); ("user_id", JNum 1);
                                 ("product", JStr "widget")] |},
            {| Deployment.management :=
                 {| ManagementService.table :=
                      [ {| ManagementModel.id := 1; ManagementModel.product := "widget";
                           ManagementModel.quantity := 4 |} ];
                    ManagementService.cache := ∅ |};
               Deployment.orders :=
                 {| OrderService.db :=
                      {| OrderModel.rows :=
                           [ {| OrderModel.id := 1; OrderModel.user_id := 1;
                                OrderModel.product := "widget" |} ];
                         OrderModel.next_id := 2; OrderModel.restart := 1 |};
                    OrderService.cache := ∅ |} |},
            [(managementCircuit, inventory_check (JStr "widget"));
             (ordersCircuit, order_creation Sample.widget_order);
             (managementCircuit,
              submit PUT "/management/product"
                (JObj [("product", JStr "widget"); ("quantity", JNum (5 - 1))]))])
  /\ exists w4,
       Deployment.serve Sample.joi_message managementCircuit
         (inventory_check (JStr "widget"))
         {| Deployment.management :=
              {| ManagementService.table :=
                   [ {| ManagementModel.id := 1; ManagementModel.product := "widget";
                        ManagementModel.quantity := 4 |} ];
                 ManagementService.cache := ∅ |};
            Deployment.orders :=
              {| OrderService.db :=
                   {| OrderModel.rows :=
                        [ {| OrderModel.id := 1; OrderModel.user_id := 1;
                             OrderModel.product := "widget" |} ];
                      OrderModel.next_id := 2; OrderModel.restart := 1 |};
                 OrderService.cache := ∅ |} |}
       = Some (HttpResponse 200
                 (JObj [("product", JStr "widget"); ("quantity", JNum (5 - 1))]),
               w4).
Proof.
  apply (C8_order_placed_and_inventory_decremented Sample.axios_error
           Sample.joi_message (Sample.stocked 5)
           {| Deployment.management :=
                {| ManagementService.table :=
                     [ {| ManagementModel.id := 1; ManagementModel.product := "widget";
                          ManagementModel.quantity := 5 |} ];
                   ManagementService.cache :=
                     {[ "management:widget" := ManagementModel.Single "widget" 5 ]} |};
              Deployment.orders := Sample.no_orders |}
           {| Deployment.management :=
                {| ManagementService.table :=
                     [ {| ManagementModel.id := 1; ManagementModel.product := "widget";
                          ManagementModel.quantity := 5 |} ];
                   ManagementService.cache :=
                     {[ "management:widget" := ManagementModel.Single "widget" 5 ]} |};
              Deployment.orders :=
                {| OrderService.db :=
                     {| OrderModel.rows :=
                          [ {| OrderModel.id := 1; OrderModel.user_id := 1;
                               OrderModel.product := "widget" |} ];
                        OrderModel.next_id := 2; OrderModel.restart := 1 |};
                   OrderService.cache := ∅ |} |}
           _ Sample.widget_order "widget"
           (JObj [("product", JStr "widget"); ("quantity", JNum 5)]) (JNum 5)
           (JObj [("id", JNum 1); ("user_id", JNum 1); ("product", JStr "widget")])
           (JObj [("id", JNum 1); ("product", JStr "widget"); ("quantity", JNum 4)])
           5);
    first [reflexivity | lia | vm_compute; reflexivity].
Defined.

(** ** The order store *)

(** A listing served from the cache does not reach the table. *)
Lemma get_orders_cached (st : OrderService.state) (cached : OrderModel.result) :
  OrderService.cache st !! "order:all" = Some cached ->
  snd (OrderRouter.get_orders st) = st.
Proof.
  intros Hhit. unfold OrderRouter.get_orders, OrderService.getOrderAll. rewrite Hhit.
  destruct cached as [owner name | [| r l]]; reflexivity.
Qed.

(** A listing of a table that has rows leaves the table as it is. *)
Lemma getAll_nonempty (t : OrderModel.table) :
  OrderModel.rows t <> [] -> OrderModel.getAll t = (OrderModel.rows t, t).
Proof.
  unfold OrderModel.getAll. destruct (OrderModel.rows t); [congruence | reflexivity].
Qed.

(** C10: whenever [OrderModel.getAll] finds the table empty it truncates it
    with RESTART IDENTITY, which changes the stored state whenever the
    sequence had advanced; a [GET /orders] on an empty table that is not
    served from the cache answers 404 and leaves the table so truncated; and
    the next order created then gets the restart value as its identifier
    again, where it would have got the next value of the sequence. *)
Theorem C10_listing_an_empty_table_restarts_the_identity
    (t : OrderModel.table) (c : gmap string OrderModel.result)
    (u : Z) (p : string) :
  OrderModel.rows t = [] ->
  OrderModel.getAll t = ([], OrderModel.truncated t)
  /\ (OrderModel.next_id t <> OrderModel.restart t -> snd (OrderModel.getAll t) <> t)
  /\ (c !! "order:all" = None ->
      OrderRouter.get_orders {| OrderService.db := t; OrderService.cache := c |}
      = ((404%Z, JObj [("error", JStr "Orders not found")]),
         {| OrderService.db := OrderModel.truncated t; OrderService.cache := c |}))
  /\ OrderModel.id (fst (OrderModel.create u p (snd (OrderModel.getAll t))))
     = OrderModel.restart t
  /\ OrderModel.id (fst (OrderModel.create u p t)) = OrderModel.next_id t.
Proof.
  intros Hempty.
  assert (Hall : OrderModel.getAll t = ([], OrderModel.truncated t))
    by (unfold OrderModel.getAll; rewrite Hempty; reflexivity).
  rewrite Hall. cbn [snd]. split; [reflexivity |]. split; [| split].
  - intros Hadvanced Heq. apply Hadvanced.
    rewrite <- Heq at 1. reflexivity.
  - intros Hmiss. unfold OrderRouter.get_orders, OrderService.getOrderAll.
    cbn [OrderService.cache OrderService.db]. rewrite Hmiss, Hall. reflexivity.
  - split; reflexivity.
Qed.

(** The order store after an order was placed and deleted through the
    router: the listing answers 404 and the sequence, which stood at 2, is
    back at 1. *)
Lemma C10_emptied_store_listed :
  OrderModel.getAll (OrderService.db Sample.emptied)
    = ([], OrderModel.truncated (OrderService.db Sample.emptied))
  /\ (OrderModel.next_id (OrderService.db Sample.emptied)
        <> OrderModel.restart (OrderService.db Sample.emptied) ->
      snd (OrderModel.getAll (OrderService.db Sample.emptied))
        <> OrderService.db Sample.emptied)
  /\ ((∅ : gmap string OrderModel.result) !! "order:all" = None ->
      OrderRouter.get_orders
        {| OrderService.db := OrderService.db Sample.emptied; OrderService.cache := ∅ |}
      = ((404%Z, JObj [("error", JStr "Orders not found")]),
         {| OrderService.db := OrderModel.truncated (OrderService.db Sample.emptied);
            OrderService.cache := ∅ |}))
  /\ OrderModel.id
       (fst (OrderModel.create 2 "gadget"
               (snd (OrderModel.getAll (OrderService.db Sample.emptied)))))
     = OrderModel.restart (OrderService.db Sample.emptied)
  /\ OrderModel.id (fst (OrderModel.create 2 "gadget" (OrderService.db Sample.emptied)))
     = OrderModel.next_id (OrderService.db Sample.emptied).
Proof.
  apply (C10_listing_an_empty_table_restarts_the_identity
           (OrderService.db Sample.emptied) ∅ 2 "gadget").
  reflexivity.
Defined.

(** The first order gets identifier 1; after it is deleted and the orders
    are listed, the next order gets identifier 1 again, where without the
    listing it gets 2. *)
Lemma order_identifier_reused :
  fst (OrderRouter.post_order Sample.joi_message 1 "widget" Sample.no_orders)
    = (201%Z, JObj [("id", JNum 1); ("user_id", JNum 1); ("product", JStr "widget")])
  /\ OrderService.db Sample.emptied
     = {| OrderModel.rows := []; OrderModel.next_id := 2; OrderModel.restart := 1 |}
  /\ fst (OrderRouter.post_order Sample.joi_message 2 "gadget"
            (snd (OrderRouter.get_orders Sample.emptied)))
     = (201%Z, JObj [("id", JNum 1); ("user_id", JNum 2); ("product", JStr "gadget")])
  /\ fst (OrderRouter.post_order Sample.joi_message 2 "gadget" Sample.emptied)
     = (201%Z, JObj [("id", JNum 2); ("user_id", JNum 2); ("product", JStr "gadget")]).
Proof. repeat split. Qed.

(** * Further properties of the backends and of the gateway *)

(** ** Lists of rows *)

Section Rows.

Context {R : Type} (ident : R -> Z).

Lemma find_filter_other (i : Z) (l : list R) :
  List.find (fun r => (ident r =? i)%Z)
            (List.filter (fun r => negb (ident r =? i)%Z) l) = None.
Proof.
  induction l as [| a l IH]; cbn [List.filter List.find]; [reflexivity |].
  destruct (ident a =? i)%Z eqn:Ha; cbn [negb List.find]; [exact IH |].
  rewrite Ha. exact IH.
Qed.

Lemma filter_absent (i : Z) (l : list R) :
  List.find (fun r => (ident r =? i)%Z) l = None ->
  List.filter (fun r => negb (ident r =? i)%Z) l = l.
Proof.
  induction l as [| a l IH]; cbn [List.filter List.find]; [reflexivity |].
  destruct (ident a =? i)%Z; [discriminate |].
  intros H. cbn [negb]. rewrite (IH H). reflexivity.
Qed.

Lemma find_map_keyed (i : Z) (f : R -> R) (l : list R) :
  (forall r, ident (f r) = ident r) ->
  List.find (fun r => (ident r =? i)%Z) (map f l)
  = option_map f (List.find (fun r => (ident r =? i)%Z) l).
Proof.
  intros Hf. induction l as [| a l IH]; cbn [map List.find]; [reflexivity |].
  rewrite Hf. destruct (ident a =? i)%Z; [reflexivity | exact IH].
Qed.

Lemma map_keys (f : R -> R) (l : list R) :
  (forall r, ident (f r) = ident r) -> map ident (map f l) = map ident l.
Proof.
  intros Hf. induction l as [| a l IH]; cbn [map]; [reflexivity |].
  rewrite Hf, IH. reflexivity.
Qed.

Lemma NoDup_filter_keys (g : R -> bool) (l : list R) :
  NoDup (map ident l) -> NoDup (map ident (List.filter g l)).
Proof.
  induction l as [| a l IH]; cbn [map List.filter]; [intros; constructor |].
  intros Hnd. apply NoDup_cons in Hnd as [Hin Hnd].
  destruct (g a); cbn [map]; [| exact (IH Hnd)].
  apply NoDup_cons. split; [| exact (IH Hnd)].
  intros Hin'. apply Hin.
  apply list_elem_of_In, in_map_iff in Hin' as [r [Hr Hr']].
  apply list_elem_of_In, in_map_iff. exists r. split; [exact Hr |].
  apply filter_In in Hr' as [Hr' _]. exact Hr'.
Qed.

End Rows.

(** ** The order store, further *)

Lemma set_product_id (i : Z) (p : string) (r : OrderModel.row) :
  OrderModel.id (OrderModel.set_product i p r) = OrderModel.id r.
Proof. unfold OrderModel.set_product. destruct (OrderModel.id r =? i)%Z; reflexivity. Qed.

Lemma perform_well_keyed (q : OrderModel.statement) (t : OrderModel.table) :
  OrderModel.well_keyed t -> OrderModel.well_keyed (OrderModel.perform q t).
Proof.
  intros [Hnd Hlt]. unfold OrderModel.well_keyed.
  destruct q as [u p | | i | i p]; cbn [OrderModel.perform].
  - unfold OrderModel.create. cbn [snd OrderModel.rows OrderModel.next_id]. split.
    + rewrite map_app. cbn [map OrderModel.id]. apply NoDup_app. split; [exact Hnd |].
      split; [| apply NoDup_singleton].
      intros x Hx Hx'. apply list_elem_of_singleton in Hx'. subst x.
      apply list_elem_of_In, in_map_iff in Hx as [r [Hr Hr']].
      rewrite Forall_forall in Hlt. apply list_elem_of_In in Hr'.
      specialize (Hlt r Hr'). lia.
    + apply Forall_app. split.
      * eapply Forall_impl; [exact Hlt |]. cbn. intros r Hr. lia.
      * repeat constructor. cbn. lia.
  - unfold OrderModel.getAll. destruct (OrderModel.rows t) eqn:Hrows; cbn [snd].
    + cbn. split; constructor.
    + rewrite Hrows. split; [exact Hnd | exact Hlt].
  - unfold OrderModel.delete. cbn [snd OrderModel.rows OrderModel.next_id]. split.
    + apply NoDup_filter_keys. exact Hnd.
    + rewrite Forall_forall in *. intros r Hr. apply Hlt.
      apply list_elem_of_In in Hr. apply filter_In in Hr as [Hr _].
      apply list_elem_of_In. exact Hr.
  - unfold OrderModel.update. cbn [snd OrderModel.rows OrderModel.next_id]. split.
    + rewrite (map_keys OrderModel.id); [exact Hnd | apply set_product_id].
    + rewrite Forall_forall in *. intros r Hr.
      apply list_elem_of_In, in_map_iff in Hr as [r0 [<- Hr0]].
      rewrite set_product_id. apply Hlt. apply list_elem_of_In. exact Hr0.
Qed.

(** X1: whatever statements of the order model run against the table, in
    whatever order, the identifiers of the stored orders stay pairwise
    distinct and below the next value of the sequence; the restart of the
    sequence by a listing does not break this, since it happens on an empty
    table only. *)
Theorem order_identifiers_stay_distinct (qs : list OrderModel.statement)
    (t : OrderModel.table) :
  OrderModel.well_keyed t ->
  OrderModel.well_keyed (fold_left (fun t q => OrderModel.perform q t) qs t).
Proof.
  revert t. induction qs as [| q qs IH]; intros t Ht; cbn [fold_left].
  - exact Ht.
  - apply IH, perform_well_keyed, Ht.
Qed.

Lemma order_identifiers_of_sample :
  OrderModel.well_keyed
    (fold_left (fun t q => OrderModel.perform q t) Sample.statements
       (OrderService.db Sample.no_orders)).
Proof.
  apply (order_identifiers_stay_distinct Sample.statements
           (OrderService.db Sample.no_orders)).
  split; constructor.
Defined.

(** X2: [DELETE /orders/:id] of a stored order deletes the row but answers
    500 with [{error: 'order_id is not defined'}]: no row with that
    identifier is left, the other rows and the sequence are as before, and
    nothing in the cache is dropped. *)
Theorem delete_stored_order_answers_500 (i : Z) (st : OrderService.state)
    (r : OrderModel.row) :
  List.find (fun r => (OrderModel.id r =? i)%Z) (OrderModel.rows (OrderService.db st))
    = Some r ->
  OrderRouter.delete_order i st
  = ((500%Z, JObj [("error", JStr "order_id is not defined")]),
     {| OrderService.db :=
          {| OrderModel.rows :=
               List.filter (fun r => negb (OrderModel.id r =? i)%Z)
                 (OrderModel.rows (OrderService.db st));
             OrderModel.next_id := OrderModel.next_id (OrderService.db st);
             OrderModel.restart := OrderModel.restart (OrderService.db st) |};
        OrderService.cache := OrderService.cache st |})
  /\ OrderModel.getById i (OrderService.db (snd (OrderRouter.delete_order i st))) = None.
Proof.
  intros Hfind.
  assert (Heq : OrderRouter.delete_order i st
                = ((500%Z, JObj [("error", JStr "order_id is not defined")]),
                   {| OrderService.db :=
                        {| OrderModel.rows :=
                             List.filter (fun r => negb (OrderModel.id r =? i)%Z)
                               (OrderModel.rows (OrderService.db st));
                           OrderModel.next_id := OrderModel.next_id (OrderService.db st);
                           OrderModel.restart := OrderModel.restart (OrderService.db st) |};
                      OrderService.cache := OrderService.cache st |})).
  { unfold OrderRouter.delete_order, OrderService.deleteOrder, OrderModel.delete.
    rewrite Hfind. reflexivity. }
  split; [exact Heq |].
  rewrite Heq. unfold OrderModel.getById. cbn [snd OrderService.db OrderModel.rows].
  rewrite (find_filter_other OrderModel.id). reflexivity.
Qed.

Lemma delete_order_one_of_two :
  OrderRouter.delete_order 1 Sample.two_orders
  = ((500%Z, JObj [("error", JStr "order_id is not defined")]),
     {| OrderService.db :=
          {| OrderModel.rows :=
               List.filter (fun r => negb (OrderModel.id r =? 1)%Z)
                 (OrderModel.rows (OrderService.db Sample.two_orders));
             OrderModel.next_id := OrderModel.next_id (OrderService.db Sample.two_orders);
             OrderModel.restart := OrderModel.restart (OrderService.db Sample.two_orders) |};
        OrderService.cache := OrderService.cache Sample.two_orders |})
  /\ OrderModel.getById 1
       (OrderService.db (snd (OrderRouter.delete_order 1 Sample.two_orders))) = None.
Proof.
  apply (delete_stored_order_answers_500 1 Sample.two_orders
           {| OrderModel.id := 1; OrderModel.user_id := 7; OrderModel.product := "widget" |}).
  reflexivity.
Defined.

(** X3: [DELETE /orders/:id] of an identifier that is not stored answers 404
    [{error: 'Order not found'}] and leaves table, sequence and cache as
    they are. *)
Theorem delete_unknown_order_answers_404 (i : Z) (st : OrderService.state) :
  List.find (fun r => (OrderModel.id r =? i)%Z) (OrderModel.rows (OrderService.db st))
    = None ->
  OrderRouter.delete_order i st
  = ((404%Z, JObj [("error", JStr "Order not found")]), st).
Proof.
  intros Hfind.
  unfold OrderRouter.delete_order, OrderService.deleteOrder, OrderModel.delete.
  rewrite Hfind, (filter_absent OrderModel.id i _ Hfind).
  destruct st as [[rows next restart] cache]. reflexivity.
Qed.

Lemma delete_order_three_of_two :
  OrderRouter.delete_order 3 Sample.two_orders
  = ((404%Z, JObj [("error", JStr "Order not found")]), Sample.two_orders).
Proof.
  apply (delete_unknown_order_answers_404 3 Sample.two_orders). reflexivity.
Defined.

(** X4: neither [PUT /orders/:id] nor [DELETE /orders/:id] ever answers
    200: the update answers 400, 404 or 500 and the delete 404 or 500,
    whatever the store holds. *)
Theorem order_update_and_delete_never_answer_200
    (joi_message : value -> string) (i : Z) (u : option Z) (p : string)
    (st : OrderService.state) :
  (fst (fst (OrderRouter.put_order joi_message i u p st)) = 400
   \/ fst (fst (OrderRouter.put_order joi_message i u p st)) = 404
   \/ fst (fst (OrderRouter.put_order joi_message i u p st)) = 500)%Z
  /\ (fst (fst (OrderRouter.delete_order i st)) = 404
      \/ fst (fst (OrderRouter.delete_order i st)) = 500)%Z.
Proof.
  split.
  - unfold OrderRouter.put_order, OrderService.updateOrder, OrderModel.update.
    destruct (OrderRouter.updateSchema u p); [| left; reflexivity].
    destruct (List.find _ _); cbn; auto.
  - unfold OrderRouter.delete_order, OrderService.deleteOrder, OrderModel.delete.
    destruct (List.find _ _); cbn; auto.
Qed.

(** X5: [PUT /orders/:id] with a valid product on a stored order answers 500
    with [{error: 'order_id is not defined'}], yet the row now carries the
    new product; its [user_id] is the old one whatever the body says, and
    the cache is untouched. *)
Theorem put_stored_order_changes_the_product_and_answers_500
    (joi_message : value -> string) (i : Z) (u : option Z) (p : string)
    (st : OrderService.state) (r : OrderModel.row) :
  OrderRouter.updateSchema u p = true ->
  List.find (fun r => (OrderModel.id r =? i)%Z) (OrderModel.rows (OrderService.db st))
    = Some r ->
  fst (OrderRouter.put_order joi_message i u p st)
    = (500%Z, JObj [("error", JStr "order_id is not defined")])
  /\ OrderModel.getById i (OrderService.db (snd (OrderRouter.put_order joi_message i u p st)))
     = Some (OrderModel.Single (OrderModel.user_id r) p)
  /\ OrderService.cache (snd (OrderRouter.put_order joi_message i u p st))
     = OrderService.cache st.
Proof.
  intros Hvalid Hfind.
  assert (Hfound : List.find (fun r => (OrderModel.id r =? i)%Z)
                     (map (OrderModel.set_product i p)
                        (OrderModel.rows (OrderService.db st)))
                   = Some {| OrderModel.id := OrderModel.id r;
                             OrderModel.user_id := OrderModel.user_id r;
                             OrderModel.product := p |}).
  { rewrite (find_map_keyed OrderModel.id); [| apply set_product_id].
    rewrite Hfind. cbn [option_map]. unfold OrderModel.set_product.
    apply List.find_some in Hfind as [_ ->]. reflexivity. }
  unfold OrderRouter.put_order, OrderService.updateOrder, OrderModel.update.
  rewrite Hvalid, Hfound. cbn [fst snd OrderService.db OrderService.cache].
  split; [reflexivity |]. split; [| reflexivity].
  unfold OrderModel.getById. cbn [OrderModel.rows]. rewrite Hfound. reflexivity.
Qed.

Lemma put_order_one_of_two :
  fst (OrderRouter.put_order Sample.joi_message 1 (Some 9%Z) "gizmo" Sample.two_orders)
    = (500%Z, JObj [("error", JStr "order_id is not defined")])
  /\ OrderModel.getById 1
       (OrderService.db
          (snd (OrderRouter.put_order Sample.joi_message 1 (Some 9%Z) "gizmo"
                  Sample.two_orders)))
     = Some (OrderModel.Single
               (OrderModel.user_id
                  {| OrderModel.id := 1; OrderModel.user_id := 7;
                     OrderModel.product := "widget" |}) "gizmo")
  /\ OrderService.cache
       (snd (OrderRouter.put_order Sample.joi_message 1 (Some 9%Z) "gizmo"
               Sample.two_orders))
     = OrderService.cache Sample.two_orders.
Proof.
  apply (put_stored_order_changes_the_product_and_answers_500 Sample.joi_message 1
           (Some 9%Z) "gizmo" Sample.two_orders
           {| OrderModel.id := 1; OrderModel.user_id := 7; OrderModel.product := "widget" |});
    reflexivity.
Defined.

(** X6: after a [POST /orders] that the order router accepts, the next
    [GET /orders] answers 200 with the rows that were stored before followed
    by the new order, whatever list was cached before: creating an order
    drops the cached list. *)
Theorem created_order_is_listed (joi_message : value -> string) (u : Z) (p : string)
    (st : OrderService.state) :
  OrderRouter.createSchema u p = true ->
  fst (OrderRouter.post_order joi_message u p st)
    = (201%Z,
       JObj [("id", JNum (OrderModel.next_id (OrderService.db st)));
             ("user_id", JNum u); ("product", JStr p)])
  /\ fst (OrderRouter.get_orders (snd (OrderRouter.post_order joi_message u p st)))
     = (200%Z,
        JArr (map OrderRouter.row_json
                (OrderModel.rows (OrderService.db st)
                 ++ [ {| OrderModel.id := OrderModel.next_id (OrderService.db st);
                         OrderModel.user_id := u; OrderModel.product := p |} ]))).
Proof.
  intros Hvalid.
  unfold OrderRouter.post_order, OrderService.createOrder, OrderModel.create.
  rewrite Hvalid. cbn [fst snd]. split; [reflexivity |].
  unfold OrderRouter.get_orders, OrderService.getOrderAll.
  cbn [OrderService.cache OrderService.db]. rewrite lookup_delete_eq.
  unfold OrderModel.getAll. cbn [OrderModel.rows].
  destruct (OrderModel.rows (OrderService.db st)) as [| a l]; reflexivity.
Qed.

Lemma third_order_is_listed :
  fst (OrderRouter.post_order Sample.joi_message 7 "gizmo" Sample.two_orders_read)
    = (201%Z,
       JObj [("id", JNum (OrderModel.next_id (OrderService.db Sample.two_orders_read)));
             ("user_id", JNum 7); ("product", JStr "gizmo")])
  /\ fst (OrderRouter.get_orders
            (snd (OrderRouter.post_order Sample.joi_message 7 "gizmo"
                    Sample.two_orders_read)))
     = (200%Z,
        JArr (map OrderRouter.row_json
                (OrderModel.rows (OrderService.db Sample.two_orders_read)
                 ++ [ {| OrderModel.id :=
                           OrderModel.next_id (OrderService.db Sample.two_orders_read);
                         OrderModel.user_id := 7; OrderModel.product := "gizmo" |} ]))).
Proof.
  apply (created_order_is_listed Sample.joi_message 7 "gizmo" Sample.two_orders_read).
  reflexivity.
Defined.

(** X7: once [GET /orders] has been served from the table, neither a
    [DELETE /orders/:id] nor a [PUT /orders/:id] changes what the next
    [GET /orders] answers: both fail before they drop the cached list, so a
    deleted order stays listed and an updated one keeps its old product. *)
Theorem listing_is_stale_after_delete_and_update
    (joi_message : value -> string) (i : Z) (u : option Z) (p : string)
    (st : OrderService.state) (cached : OrderModel.result) :
  OrderService.cache st !! "order:all" = Some cached ->
  fst (OrderRouter.get_orders (snd (OrderRouter.delete_order i st)))
    = fst (OrderRouter.get_orders st)
  /\ fst (OrderRouter.get_orders (snd (OrderRouter.put_order joi_message i u p st)))
     = fst (OrderRouter.get_orders st).
Proof.
  intros Hhit.
  assert (Hread : forall st', OrderService.cache st' = OrderService.cache st ->
                    fst (OrderRouter.get_orders st') = fst (OrderRouter.get_orders st)).
  { intros st' Hc. unfold OrderRouter.get_orders, OrderService.getOrderAll.
    rewrite Hc, Hhit. destruct cached as [owner name | [| r l]]; reflexivity. }
  split; apply Hread.
  - unfold OrderRouter.delete_order, OrderService.deleteOrder, OrderModel.delete.
    destruct (List.find _ _); reflexivity.
  - unfold OrderRouter.put_order, OrderService.updateOrder, OrderModel.update.
    destruct (OrderRouter.updateSchema u p); [| reflexivity].
    destruct (List.find _ _); reflexivity.
Qed.

Lemma deleted_order_stays_listed :
  fst (OrderRouter.get_orders (snd (OrderRouter.delete_order 1 Sample.two_orders_read)))
    = fst (OrderRouter.get_orders Sample.two_orders_read)
  /\ fst (OrderRouter.get_orders
            (snd (OrderRouter.put_order Sample.joi_message 1 None "gizmo"
                    Sample.two_orders_read)))
     = fst (OrderRouter.get_orders Sample.two_orders_read).
Proof.
  apply (listing_is_stale_after_delete_and_update Sample.joi_message 1 None "gizmo"
           Sample.two_orders_read
           (OrderModel.Listing (OrderModel.rows (OrderService.db Sample.two_orders)))).
  reflexivity.
Defined.

(** X8: an order that [GET /orders/:id] has answered with 200 is answered
    with the same body after [DELETE /orders/:id] removed its row: the
    entry cached by the first read is never dropped (and is taken not to
    have expired in between). *)
Theorem deleted_order_is_still_served (i : Z) (st : OrderService.state)
    (payload : value) :
  fst (OrderRouter.get_order i st) = (200%Z, payload) ->
  fst (OrderRouter.get_order i
         (snd (OrderRouter.delete_order i (snd (OrderRouter.get_order i st)))))
    = (200%Z, payload)
  /\ OrderModel.getById i
       (OrderService.db
          (snd (OrderRouter.delete_order i (snd (OrderRouter.get_order i st))))) = None.
Proof.
  intros Hfirst.
  assert (Hcached : exists e,
             OrderService.cache (snd (OrderRouter.get_order i st))
               !! OrderService.key (number_to_string i) = Some e
             /\ (forall st', OrderService.cache st'
                             = OrderService.cache (snd (OrderRouter.get_order i st)) ->
                   fst (OrderRouter.get_order i st') = (200%Z, payload))).
  { unfold OrderRouter.get_order, OrderService.getOrderById in *.
    destruct (OrderService.cache st !! OrderService.key (number_to_string i))
      as [e |] eqn:Hc.
    - exists e. cbn [snd]. split.
      + destruct e as [o n | [| r l]]; exact Hc.
      + intros st' Hst'. rewrite Hst'.
        destruct e as [o n | [| r l]]; cbn [snd]; rewrite Hc; exact Hfirst.
    - destruct (OrderModel.getById i (OrderService.db st)) as [e |] eqn:Hrow.
      + exists e. cbn [snd OrderService.cache].
        split; [destruct e as [o n | [| r l]]; apply lookup_insert_eq |].
        intros st' Hst'. rewrite Hst'.
        destruct e as [o n | [| r l]]; cbn [snd OrderService.cache];
          rewrite lookup_insert_eq; exact Hfirst.
      + cbn in Hfirst. discriminate. }
  destruct Hcached as [e [_ Hserve]]. split.
  - apply Hserve.
    unfold OrderRouter.delete_order, OrderService.deleteOrder, OrderModel.delete.
    destruct (List.find _ _); reflexivity.
  - unfold OrderRouter.delete_order, OrderService.deleteOrder, OrderModel.delete.
    unfold OrderModel.getById.
    destruct (List.find (fun r => (OrderModel.id r =? i)%Z)
                (OrderModel.rows (OrderService.db (snd (OrderRouter.get_order i st)))));
      cbn [snd OrderService.db OrderModel.rows];
      rewrite (find_filter_other OrderModel.id); reflexivity.
Qed.

Lemma deleted_order_one_is_still_served :
  fst (OrderRouter.get_order 1
         (snd (OrderRouter.delete_order 1
                 (snd (OrderRouter.get_order 1 Sample.two_orders)))))
    = (200%Z, JObj [("user_id", JNum 7); ("product", JStr "widget")])
  /\ OrderModel.getById 1
       (OrderService.db
          (snd (OrderRouter.delete_order 1
                  (snd (OrderRouter.get_order 1 Sample.two_orders))))) = None.
Proof.
  apply (deleted_order_is_still_served 1 Sample.two_orders
           (JObj [("user_id", JNum 7); ("product", JStr "widget")])).
  reflexivity.
Defined.

(** ** The inventory backend, further *)

Lemma management_key_inj (a b : string) :
  ManagementService.key a = ManagementService.key b -> a = b.
Proof. unfold ManagementService.key. cbn. intros H. injection H. auto. Qed.

Lemma number_is_not_all (i : Z) : number_to_string i <> "all".
Proof.
  unfold number_to_string. destruct (Z.to_int i) as [d | d]; [destruct d |];
    cbn; discriminate.
Qed.

Lemma set_row_id (i : Z) (p : string) (q : Z) (r : ManagementModel.row) :
  ManagementModel.id (ManagementModel.set_row i p q r) = ManagementModel.id r.
Proof.
  unfold ManagementModel.set_row. destruct (ManagementModel.id r =? i)%Z; reflexivity.
Qed.

Lemma find_named_absent (p : string) (q : Z) (t : list ManagementModel.row) :
  List.find (ManagementModel.named p) (map (ManagementModel.set_quantity p q) t) = None ->
  map (ManagementModel.set_quantity p q) t = t.
Proof.
  induction t as [| a t IH]; cbn [map List.find]; [reflexivity |].
  destruct (ManagementModel.named p a) eqn:Ha.
  - assert (Hset : ManagementModel.named p (ManagementModel.set_quantity p q a) = true)
      by (unfold ManagementModel.set_quantity; rewrite Ha; exact Ha).
    rewrite Hset. discriminate.
  - assert (Hset : ManagementModel.set_quantity p q a = a)
      by (unfold ManagementModel.set_quantity; rewrite Ha; reflexivity).
    rewrite Hset, Ha. intros H. rewrite (IH H). reflexivity.
Qed.

(** X9: a second [GET /product] for the same product, with nothing in
    between, answers what the first answered and leaves the store as the
    first left it. *)
Theorem product_read_twice (p : string) (st : ManagementService.state) :
  ManagementRouter.get_product p (snd (ManagementRouter.get_product p st))
  = ManagementRouter.get_product p st.
Proof.
  unfold ManagementRouter.get_product, ManagementService.getManagementByProduct.
  destruct (ManagementService.cache st !! ManagementService.key p) as [e |] eqn:Hc.
  - destruct e as [n a | [| r l]]; cbn [snd]; rewrite Hc; reflexivity.
  - destruct (ManagementModel.getByProduct p (ManagementService.table st))
      as [e |] eqn:Hrow.
    + unfold ManagementModel.getByProduct in Hrow.
      destruct (List.find _ _) as [r |]; [| discriminate]. injection Hrow as <-.
      cbn [snd ManagementService.cache]. rewrite lookup_insert_eq. reflexivity.
    + cbn [snd]. rewrite Hc, Hrow. reflexivity.
Qed.

(** X10: [PUT /product] changes the store only when it answers 200: a body
    the schema rejects (400) and a product without a row (404) leave table
    and cache as they are. *)
Theorem put_product_changes_the_store_only_on_200
    (joi_message : value -> string) (p : string) (q : Z)
    (st : ManagementService.state) :
  fst (fst (ManagementRouter.put_product joi_message p q st)) = 200%Z
  \/ (snd (ManagementRouter.put_product joi_message p q st) = st
      /\ (fst (fst (ManagementRouter.put_product joi_message p q st)) = 400
          \/ fst (fst (ManagementRouter.put_product joi_message p q st)) = 404)%Z).
Proof.
  unfold ManagementRouter.put_product, ManagementService.decreaseQuantity,
    ManagementModel.decreaseQuantity.
  destruct (ManagementRouter.updateSchema p q); [| right; split; [reflexivity | auto]].
  destruct (List.find _ _) eqn:Hfind; [left; reflexivity |].
  right. cbn [fst snd]. split; [| auto].
  rewrite (find_named_absent p q _ Hfind). destruct st; reflexivity.
Qed.

(** X11: [PUT /product] for one product leaves the rows of every other
    product as they are: the row the table selects for another product, and
    so its quantity, is the same before and after. *)
Theorem put_product_leaves_other_products (joi_message : value -> string)
    (p p' : string) (q : Z) (st : ManagementService.state) :
  p' <> p ->
  ManagementModel.getByProduct p'
    (ManagementService.table (snd (ManagementRouter.put_product joi_message p q st)))
  = ManagementModel.getByProduct p' (ManagementService.table st).
Proof.
  intros Hne.
  assert (Hmap : ManagementModel.getByProduct p'
                   (map (ManagementModel.set_quantity p q) (ManagementService.table st))
                 = ManagementModel.getByProduct p' (ManagementService.table st)).
  { unfold ManagementModel.getByProduct.
    induction (ManagementService.table st) as [| a t IH]; cbn [map List.find];
      [reflexivity |].
    destruct (ManagementModel.named p a) eqn:Ha.
    - assert (Hset : ManagementModel.set_quantity p q a
                     = {| ManagementModel.id := ManagementModel.id a;
                          ManagementModel.product := ManagementModel.product a;
                          ManagementModel.quantity := q |})
        by (unfold ManagementModel.set_quantity; rewrite Ha; reflexivity).
      rewrite Hset. unfold ManagementModel.named at 1 3. cbn [ManagementModel.product].
      unfold ManagementModel.named in Ha. apply String.eqb_eq in Ha.
      destruct (String.eqb_spec (ManagementModel.product a) p') as [Hp |]; [| exact IH].
      congruence.
    - assert (Hset : ManagementModel.set_quantity p q a = a)
        by (unfold ManagementModel.set_quantity; rewrite Ha; reflexivity).
      rewrite Hset. destruct (ManagementModel.named p' a); [reflexivity | exact IH]. }
  unfold ManagementRouter.put_product, ManagementService.decreaseQuantity,
    ManagementModel.decreaseQuantity.
  destruct (ManagementRouter.updateSchema p q); [| reflexivity].
  destruct (List.find _ _); exact Hmap.
Qed.

Lemma put_widget_leaves_gadget :
  ManagementModel.getByProduct "gadget"
    (ManagementService.table
       (snd (ManagementRouter.put_product Sample.joi_message "widget" 4
               Sample.two_products)))
  = ManagementModel.getByProduct "gadget" (ManagementService.table Sample.two_products).
Proof.
  apply (put_product_leaves_other_products Sample.joi_message "widget" "gadget" 4
           Sample.two_products).
  discriminate.
Defined.

(** X12: a product entry cached by [GET /product] survives every
    [PUT /management/:id]: whatever the update writes, the next
    [GET /product] answers what it answered before, so a quantity set
    through the id route is not what the order saga observes. *)
Theorem product_read_is_stale_after_update_by_id
    (joi_message : value -> string) (i : Z) (p p' : string) (q' : Z)
    (st : ManagementService.state) (cached : ManagementModel.result) :
  ManagementService.cache st !! ManagementService.key p = Some cached ->
  p <> "all" ->
  p <> number_to_string i ->
  fst (ManagementRouter.get_product p
         (snd (ManagementRouter.put_management joi_message i p' q' st)))
  = fst (ManagementRouter.get_product p st).
Proof.
  intros Hhit Hall Hid.
  assert (Hread : forall st',
             ManagementService.cache st' !! ManagementService.key p = Some cached ->
             fst (ManagementRouter.get_product p st')
             = fst (ManagementRouter.get_product p st)).
  { intros st' Hc.
    unfold ManagementRouter.get_product, ManagementService.getManagementByProduct.
    rewrite Hc, Hhit. destruct cached as [n a | [| r l]]; reflexivity. }
  apply Hread.
  unfold ManagementRouter.put_management, ManagementService.updateManagement,
    ManagementModel.update.
  destruct (ManagementRouter.updateSchema p' q'); [| exact Hhit].
  destruct (List.find _ _); cbn [snd ManagementService.cache]; [| exact Hhit].
  rewrite lookup_delete_ne by (intros H; apply management_key_inj in H; congruence).
  rewrite lookup_delete_ne by (intros H; apply management_key_inj in H; congruence).
  exact Hhit.
Qed.

Lemma five_widgets_read_after_ten_were_put :
  fst (ManagementRouter.get_product "widget"
         (snd (ManagementRouter.put_management Sample.joi_message 1 "widget" 10
                 Sample.stock_read)))
  = fst (ManagementRouter.get_product "widget" Sample.stock_read).
Proof.
  apply (product_read_is_stale_after_update_by_id Sample.joi_message 1 "widget"
           "widget" 10 Sample.stock_read (ManagementModel.Single "widget" 5)).
  - reflexivity.
  - discriminate.
  - discriminate.
Defined.

(** X13: after a [PUT /management/:id] answered 200, [GET /management/:id]
    answers 200 with the product and the quantity that were put, whatever
    was cached for the id before. *)
Theorem management_put_then_get (joi_message : value -> string) (i : Z)
    (p : string) (q : Z) (st : ManagementService.state) :
  fst (fst (ManagementRouter.put_management joi_message i p q st)) = 200%Z ->
  fst (ManagementRouter.get_management i
         (snd (ManagementRouter.put_management joi_message i p q st)))
  = (200%Z, JObj [("product", JStr p); ("quantity", JNum q)]).
Proof.
  unfold ManagementRouter.put_management, ManagementService.updateManagement,
    ManagementModel.update.
  destruct (ManagementRouter.updateSchema p q); [| cbn; discriminate].
  destruct (List.find (fun r => (ManagementModel.id r =? i)%Z)
              (map (ManagementModel.set_row i p q) (ManagementService.table st)))
    as [r |] eqn:Hfind; [| cbn; discriminate].
  intros _. cbn [snd].
  unfold ManagementRouter.get_management, ManagementService.getManagementById.
  cbn [ManagementService.cache ManagementService.table].
  rewrite lookup_delete_ne
    by (intros H; apply management_key_inj in H; symmetry in H;
        exact (number_is_not_all i H)).
  rewrite lookup_delete_eq.
  unfold ManagementModel.getById. rewrite Hfind.
  rewrite (find_map_keyed ManagementModel.id) in Hfind by apply set_row_id.
  destruct (List.find (fun r => (ManagementModel.id r =? i)%Z) (ManagementService.table st))
    as [r0 |] eqn:H0; [| discriminate].
  cbn [option_map] in Hfind. injection Hfind as <-.
  apply List.find_some in H0 as [_ H0].
  unfold ManagementModel.set_row. rewrite H0. reflexivity.
Qed.

Lemma ten_widgets_put_then_read :
  fst (ManagementRouter.get_management 1
         (snd (ManagementRouter.put_management Sample.joi_message 1 "widget" 10
                 Sample.stock_read)))
  = (200%Z, JObj [("product", JStr "widget"); ("quantity", JNum 10)]).
Proof.
  apply (management_put_then_get Sample.joi_message 1 "widget" 10 Sample.stock_read).
  reflexivity.
Defined.

(** ** The user store *)

Lemma find_append {R : Type} (f : R -> bool) (l k : list R) :
  List.find f (l ++ k)
  = match List.find f l with
    | Some x => Some x
    | None => List.find f k
    end.
Proof.
  induction l as [| a l IH]; cbn [app List.find]; [reflexivity |].
  destruct (f a); [reflexivity | exact IH].
Qed.

Lemma user_key_is_not_the_list_key (a : string) : UserService.key a <> "users:all:*".
Proof. unfold UserService.key. cbn. discriminate. Qed.

Lemma set_user_id (i : Z) (e n : string) (r : UserModel.row) :
  UserModel.id (UserModel.set_user i e n r) = UserModel.id r.
Proof. unfold UserModel.set_user. destruct (UserModel.id r =? i)%Z; reflexivity. Qed.

(** X14: a user created by [POST /users] is missing from [GET /users] as
    long as a list is cached: the list is cached under [user:all], while
    creating a user drops [users:all], so the answer is the one given before
    the user existed. *)
Theorem created_user_is_not_listed (joi_message : value -> string)
    (email_ok : string -> bool) (e n : string) (st : UserService.state)
    (cached : UserModel.result) :
  UserService.cache st !! "user:all" = Some cached ->
  UserRouter.schema email_ok e n = true ->
  fst (fst (UserRouter.post_user joi_message email_ok e n st)) = 201%Z
  /\ UserModel.findById (UserModel.next_id (UserService.db st))
       (UserService.db (snd (UserRouter.post_user joi_message email_ok e n st)))
     <> None
  /\ fst (UserRouter.get_users (snd (UserRouter.post_user joi_message email_ok e n st)))
     = fst (UserRouter.get_users st).
Proof.
  intros Hhit Hvalid.
  unfold UserRouter.post_user, UserService.createUser, UserModel.create.
  rewrite Hvalid. cbn [fst snd]. split; [reflexivity |]. split.
  - unfold UserModel.findById. cbn [UserService.db UserModel.rows].
    rewrite find_append.
    destruct (List.find _ (UserModel.rows (UserService.db st))); [discriminate |].
    cbn [List.find UserModel.id]. rewrite Z.eqb_refl. discriminate.
  - unfold UserRouter.get_users, UserService.getAllUsers.
    cbn [UserService.cache]. rewrite lookup_delete_ne by discriminate.
    rewrite Hhit. destruct cached as [a c | [| r l]]; reflexivity.
Qed.

Lemma second_user_is_not_listed :
  fst (fst (UserRouter.post_user Sample.joi_message Sample.email_ok
              "u2@example.org" "second" Sample.one_user_read)) = 201%Z
  /\ UserModel.findById (UserModel.next_id (UserService.db Sample.one_user_read))
       (UserService.db
          (snd (UserRouter.post_user Sample.joi_message Sample.email_ok
                  "u2@example.org" "second" Sample.one_user_read)))
     <> None
  /\ fst (UserRouter.get_users
            (snd (UserRouter.post_user Sample.joi_message Sample.email_ok
                    "u2@example.org" "second" Sample.one_user_read)))
     = fst (UserRouter.get_users Sample.one_user_read).
Proof.
  apply (created_user_is_not_listed Sample.joi_message Sample.email_ok
           "u2@example.org" "second" Sample.one_user_read
           (UserModel.Listing (UserModel.rows (UserService.db Sample.one_user))));
    reflexivity.
Defined.

(** X15: after a [PUT /users/:id] answered 200, [GET /users/:id] answers
    200 with the email and the name that were put, whatever was cached for
    the id before: the update drops the entry of the id. *)
Theorem user_put_then_get (joi_message : value -> string)
    (email_ok : string -> bool) (i : Z) (e n : string) (st : UserService.state) :
  fst (fst (UserRouter.put_user joi_message email_ok i e n st)) = 200%Z ->
  fst (UserRouter.get_user i (snd (UserRouter.put_user joi_message email_ok i e n st)))
  = (200%Z, JObj [("email", JStr e); ("name", JStr n)]).
Proof.
  unfold UserRouter.put_user, UserService.updateUser, UserModel.update.
  destruct (UserRouter.schema email_ok e n); [| cbn; discriminate].
  destruct (List.find (fun r => (UserModel.id r =? i)%Z)
              (map (UserModel.set_user i e n) (UserModel.rows (UserService.db st))))
    as [r |] eqn:Hfind; [| cbn; discriminate].
  intros _. cbn [snd].
  unfold UserRouter.get_user, UserService.getUserById.
  cbn [UserService.cache UserService.db].
  rewrite lookup_delete_ne by (intros H; symmetry in H;
                               exact (user_key_is_not_the_list_key _ H)).
  rewrite lookup_delete_eq.
  unfold UserModel.findById. cbn [UserModel.rows]. rewrite Hfind.
  rewrite (find_map_keyed UserModel.id) in Hfind by apply set_user_id.
  destruct (List.find (fun r => (UserModel.id r =? i)%Z) (UserModel.rows (UserService.db st)))
    as [r0 |] eqn:H0; [| discriminate].
  cbn [option_map] in Hfind. injection Hfind as <-.
  apply List.find_some in H0 as [_ H0].
  unfold UserModel.set_user. rewrite H0. reflexivity.
Qed.

Lemma first_user_renamed :
  fst (UserRouter.get_user 1
         (snd (UserRouter.put_user Sample.joi_message Sample.email_ok 1
                 "one@example.org" "renamed" Sample.one_user_read)))
  = (200%Z, JObj [("email", JStr "one@example.org"); ("name", JStr "renamed")]).
Proof.
  apply (user_put_then_get Sample.joi_message Sample.email_ok 1 "one@example.org"
           "renamed" Sample.one_user_read).
  reflexivity.
Defined.

(** X16: after a [DELETE /users/:id] answered 204, [GET /users/:id] answers
    404 [{error: 'User not found'}]: the row is gone and the entry cached
    for the id is dropped with it. *)
Theorem user_delete_then_get (i : Z) (st : UserService.state) :
  fst (fst (UserRouter.delete_user i st)) = 204%Z ->
  UserRouter.get_user i (snd (UserRouter.delete_user i st))
  = ((404%Z, JObj [("error", JStr "User not found")]),
     snd (UserRouter.delete_user i st)).
Proof.
  unfold UserRouter.delete_user, UserService.deleteUser, UserModel.delete.
  destruct (List.find (fun r => (UserModel.id r =? i)%Z) (UserModel.rows (UserService.db st)))
    as [r |]; [| cbn; discriminate].
  intros _. cbn [snd].
  unfold UserRouter.get_user, UserService.getUserById.
  cbn [UserService.cache UserService.db].
  rewrite lookup_delete_ne by (intros H; symmetry in H;
                               exact (user_key_is_not_the_list_key _ H)).
  rewrite lookup_delete_eq.
  unfold UserModel.findById. cbn [UserModel.rows].
  rewrite (find_filter_other UserModel.id). reflexivity.
Qed.

Lemma first_user_deleted :
  UserRouter.get_user 1 (snd (UserRouter.delete_user 1 Sample.one_user_read))
  = ((404%Z, JObj [("error", JStr "User not found")]),
     snd (UserRouter.delete_user 1 Sample.one_user_read)).
Proof.
  apply (user_delete_then_get 1 Sample.one_user_read). reflexivity.
Defined.

(** ** The gateway, further *)

Import Behaviour.

Lemma run_ends {W A : Type} (settles : circuit -> request -> W -> option (outcome * W))
    (P : res A -> Prop) (p : prog A) :
  ends P p ->
  forall (w w' : W) (r : res A) (calls : list call),
    run settles p w = Some (r, w', calls) -> P r.
Proof.
  induction p as [a | e | c rq k IH]; cbn [ends run]; intros HP w w' r calls Hrun.
  - injection Hrun as <- _ _. exact HP.
  - injection Hrun as <- _ _. exact HP.
  - destruct (settles c rq w) as [[o w1] |]; [| discriminate].
    destruct (run settles (k o) w1) as [[[r1 w2] calls1] |] eqn:Hk; [| discriminate].
    injection Hrun as <- _ _. exact (IH o (HP o) w1 w2 r1 calls1 Hk).
Qed.

Lemma answered_with (code : Z) (b : value) :
  (code = 200 \/ code = 201 \/ code = 400 \/ code = 404 \/ code = 500)%Z ->
  answered (Val {| status := code; body := b |}).
Proof. intros H. eexists. split; [reflexivity | exact H]. Qed.

(** One step through a handler body: a settled call, a property read, a
    parse or a test is split into its cases. *)
Ltac ends_step :=
  cbn [ends try_catch bind lift settle fire send pass_through lookup_route];
  match goal with
  | |- forall _ : outcome, _ => intros [? | ?]
  | |- answered _ => apply answered_with; cbn; tauto
  | |- context [lift ?x] => destruct x
  | |- context [match parseInt ?x with _ => _ end] => destruct (parseInt x)
  | |- context [if ?b then _ else _] => destruct b
  end.

Lemma handler_ends (StringToNumber : string -> option Z) (rt : route) :
  ends answered (handler StringToNumber rt).
Proof.
  destruct rt; cbn [handler];
    unfold post_orders, get_management_product, get_user_details;
    repeat ends_step.
Qed.

(** X17: no exception leaves a route handler: on every breaker-backed route,
    however the calls settle, the handler ends by sending an answer, and the
    status of the answer is 200, 201, 400, 404 or 500. *)
Theorem every_route_answers {W : Type}
    (settles : circuit -> request -> W -> option (outcome * W))
    (StringToNumber : string -> option Z) (rt : route) (w w' : W)
    (r : res response) (calls : list call) :
  run settles (handler StringToNumber rt) w = Some (r, w', calls) ->
  exists answer,
    r = Val answer
    /\ (status answer = 200 \/ status answer = 201 \/ status answer = 400
        \/ status answer = 404 \/ status answer = 500)%Z.
Proof.
  intros Hrun.
  exact (run_ends settles answered _ (handler_ends StringToNumber rt) w w' r calls Hrun).
Qed.

Lemma order_fallback_answer :
  exists answer,
    Val {| status := 201; body := fallback ordersCircuit |} = Val answer
    /\ (status answer = 200 \/ status answer = 201 \/ status answer = 400
        \/ status answer = 404 \/ status answer = 500)%Z.
Proof.
  apply (every_route_answers replay Sample.decimal (PostOrders Sample.widget_order)
           [Resolved (JObj [("product", JStr "widget"); ("quantity", JNum 5)]);
            Resolved (fallback ordersCircuit);
            Resolved (JObj [("id", JNum 1); ("product", JStr "widget");
                            ("quantity", JNum 4)])]
           []
           (Val {| status := 201; body := fallback ordersCircuit |})
           [(managementCircuit, inventory_check (JStr "widget"));
            (ordersCircuit, order_creation Sample.widget_order);
            (managementCircuit, inventory_decrement (JStr "widget") 5)]).
  reflexivity.
Defined.

(** ** Failures and the caller *)









Section GatewayFurther.

Context {W : Type} (settles : circuit -> request -> W -> option (outcome * W)).
Context (StringToNumber : string -> option Z).

(** X21: an observed quantity that is not a number, or is below zero and
    not -1, is answered like an empty stock: 400
    [{error: 'Product quantity is 0'}] with the inventory check as the only
    call. *)
Theorem odd_quantities_answer_400 (w w1 : W) (reqBody product management q : value) :
  get reqBody "product" = Val product ->
  settles managementCircuit (inventory_check product) w
    = Some (Resolved management, w1) ->
  get management "quantity" = Val q ->
  parseInt q = None
  \/ (exists quantity, parseInt q = Some quantity /\ (quantity < -1)%Z) ->
  run settles (post_orders reqBody) w =
    Some (Val {| status := 400; body := JObj [("error", JStr "Product quantity is 0")] |},
          w1, [(managementCircuit, inventory_check product)]).
Proof.
  intros Hp Hcheck Hq [Hn | [quantity [Hn Hlow]]]; unfold post_orders; run_handler.
  - reflexivity.
  - destruct (Z.ltb_spec 0 quantity); [lia |].
    destruct (Z.eqb_spec quantity (-1)); [lia |]. reflexivity.
Qed.

Lemma filter_items_keeps_the_matching (userId : string) (l : list value) :
  Forall readable l ->
  filter_items StringToNumber userId l
  = Val (List.filter
           (fun order =>
              match get order "user_id" with
              | Val uid => loose_eq_str StringToNumber uid userId
              | Err _ => false
              end) l).
Proof.
  induction 1 as [| order rest Hr _ IH]; cbn [filter_items List.filter]; [reflexivity |].
  destruct (get_readable order "user_id" Hr) as [uid ->]. rewrite IH. reflexivity.
Qed.

(** X22: when the user lookup resolves to a user and the order list to a
    list of objects, [GET /users/:id/details] answers 200 with the user and
    exactly those orders, in their order, whose [user_id] equals the
    requested id under [==]. *)
Theorem details_return_the_orders_of_the_user (w w1 w2 : W) (userId : string)
    (user e : value) (orders : list value) :
  settles usersCircuit (fetch ("/users/" +:+ userId)) w = Some (Resolved user, w1) ->
  settles ordersCircuit (fetch "/orders") w1 = Some (Resolved (JArr orders), w2) ->
  get user "error" = Val e ->
  e <> JStr "User not found" ->
  Forall readable orders ->
  run settles (get_user_details StringToNumber userId) w =
    Some (Val {| status := 200;
                 body :=
                   JObj [("user", user);
                         ("orders",
                          JArr (List.filter
                                  (fun order =>
                                     match get order "user_id" with
                                     | Val uid => loose_eq_str StringToNumber uid userId
                                     | Err _ => false
                                     end) orders))] |},
          w2,
          [(usersCircuit, fetch ("/users/" +:+ userId));
           (ordersCircuit, fetch "/orders")]).
Proof.
  intros Hu Ho He Hne Hread. unfold get_user_details. handler_step.
  rewrite Hu. handler_step. rewrite Ho. handler_step.
  unfold filter_orders. rewrite (filter_items_keeps_the_matching userId orders Hread).
  handler_step. rewrite He. handler_step.
  destruct (strict_eq_str e "User not found") eqn:Heq; [| reflexivity].
  destruct e; cbn in Heq; try discriminate.
  apply String.eqb_eq in Heq. congruence.
Qed.

End GatewayFurther.

Section FailedBackend.

Context {W : Type} (axios_error : Z -> value -> value).
Context (serve : circuit -> request -> W -> option (http_result * W)).
Context (StringToNumber : string -> option Z).

(** X18: on every route that fires one breaker, a call the backend fails
    (no response, or a status that is neither 2xx nor 404) is answered
    under the route's success status, 200 or 201, with the breaker's
    fallback as body: the [catch] of the route is not taken, and no 500 is
    sent. *)
Theorem failed_call_is_answered_with_the_fallback (rt : route) (c : circuit)
    (r : request) (ok : Z) (w w1 : W) (h : http_result) :
  plain rt = Some (c, r, ok) ->
  serve c r w = Some (h, w1) ->
  failing h = true ->
  run (fires axios_error serve) (handler StringToNumber rt) w =
    Some (Val {| status := ok; body := fallback c |}, w1, [(c, r)]).
Proof.
  intros Hplain Hserve Hfail.
  pose proof (fires_failing axios_error serve c r w w1 h Hserve Hfail) as Hfire.
  destruct rt; cbn [plain] in Hplain; inversion Hplain; subst c r ok; clear Hplain;
    cbn [handler]; unfold get_management_product;
    handler_step; rewrite Hfire; reflexivity.
Qed.

(** X19: when the backend fails the inventory check, the saga reads no
    quantity in the fallback and answers as for an empty stock: 400
    [{error: 'Product quantity is 0'}], with the check as the only call. *)
Theorem failed_inventory_check_answers_400 (w w1 : W) (reqBody product : value)
    (h : http_result) :
  get reqBody "product" = Val product ->
  serve managementCircuit (inventory_check product) w = Some (h, w1) ->
  failing h = true ->
  run (fires axios_error serve) (post_orders reqBody) w =
    Some (Val {| status := 400; body := JObj [("error", JStr "Product quantity is 0")] |},
          w1, [(managementCircuit, inventory_check product)]).
Proof.
  intros Hp Hcheck Hfail.
  apply (post_orders_management_fallback (fires axios_error serve)); [assumption |].
  apply (fires_failing _ _ _ _ _ _ h); assumption.
Qed.

(** X20: when the order was created and the backend then fails the
    inventory decrement, the saga still answers 201 with the created order:
    the caller is not told that the stock was not decremented. *)
Theorem failed_decrement_still_answers_201 (w w1 w2 w3 : W)
    (reqBody product management q order : value) (quantity code created : Z)
    (h : http_result) :
  get reqBody "product" = Val product ->
  serve managementCircuit (inventory_check product) w
    = Some (HttpResponse code management, w1) ->
  validateStatus code = true ->
  get management "quantity" = Val q ->
  parseInt q = Some quantity ->
  (0 < quantity)%Z ->
  serve ordersCircuit (order_creation reqBody) w1
    = Some (HttpResponse created order, w2) ->
  validateStatus created = true ->
  serve managementCircuit (inventory_decrement product quantity) w2 = Some (h, w3) ->
  failing h = true ->
  run (fires axios_error serve) (post_orders reqBody) w =
    Some (Val {| status := 201; body := order |}, w3,
          [(managementCircuit, inventory_check product);
           (ordersCircuit, order_creation reqBody);
           (managementCircuit, inventory_decrement product quantity)]).
Proof.
  intros Hp Hcheck Hcode Hq Hn Hpos Horder Hcreated Hdec Hfail.
  apply (post_orders_positive (fires axios_error serve)
           w w1 w2 w3 reqBody product management q order
           (fallback managementCircuit) quantity); try assumption.
  - apply (fires_passing _ _ _ _ _ _ code); assumption.
  - apply (fires_passing _ _ _ _ _ _ created); assumption.
  - apply (fires_failing _ _ _ _ _ _ h); assumption.
Qed.

End FailedBackend.

Lemma refused_user_listing :
  run (fires Sample.axios_error Sample.refusing) (handler Sample.decimal GetUsers) tt =
    Some (Val {| status := 200; body := fallback usersCircuit |}, tt,
          [(usersCircuit, fetch "/users")]).
Proof.
  apply (failed_call_is_answered_with_the_fallback Sample.axios_error Sample.refusing
           Sample.decimal GetUsers usersCircuit (fetch "/users") 200 tt tt
           (NoResponse
              (JObj [("message", JStr "connect ECONNREFUSED 10.0.0.3:8003");
                     ("stack", JStr "Error: connect ECONNREFUSED at TCPConnectWrap")])));
    reflexivity.
Defined.

Lemma refused_widget_check :
  run (fires Sample.axios_error Sample.refusing) (post_orders Sample.widget_order) tt =
    Some (Val {| status := 400; body := JObj [("error", JStr "Product quantity is 0")] |},
          tt, [(managementCircuit, inventory_check (JStr "widget"))]).
Proof.
  apply (failed_inventory_check_answers_400 Sample.axios_error Sample.refusing tt tt
           Sample.widget_order (JStr "widget")
           (NoResponse
              (JObj [("message", JStr "connect ECONNREFUSED 10.0.0.3:8003");
                     ("stack", JStr "Error: connect ECONNREFUSED at TCPConnectWrap")])));
    reflexivity.
Defined.

Lemma timed_out_widget_decrement :
  run (fires Sample.axios_error Sample.scripted) (post_orders Sample.widget_order)
      [HttpResponse 200 (JObj [("product", JStr "widget"); ("quantity", JNum 5)]);
       HttpResponse 201 (JObj [("id", JNum 1); ("user_id", JNum 1);
                               ("product", JStr "widget")]);
       NoResponse (JStr "ETIMEDOUT")] =
    Some (Val {| status := 201;
                 body := JObj [("id", JNum 1); ("user_id", JNum 1);
                               ("product", JStr "widget")] |},
          [],
          [(managementCircuit, inventory_check (JStr "widget"));
           (ordersCircuit, order_creation Sample.widget_order);
           (managementCircuit, inventory_decrement (JStr "widget") 5)]).
Proof.
  apply (failed_decrement_still_answers_201 Sample.axios_error Sample.scripted
           [HttpResponse 200 (JObj [("product", JStr "widget"); ("quantity", JNum 5)]);
            HttpResponse 201 (JObj [("id", JNum 1); ("user_id", JNum 1);
                                    ("product", JStr "widget")]);
            NoResponse (JStr "ETIMEDOUT")]
           [HttpResponse 201 (JObj [("id", JNum 1); ("user_id", JNum 1);
                                    ("product", JStr "widget")]);
            NoResponse (JStr "ETIMEDOUT")]
           [NoResponse (JStr "ETIMEDOUT")] []
           Sample.widget_order (JStr "widget")
           (JObj [("product", JStr "widget"); ("quantity", JNum 5)]) (JNum 5)
           (JObj [("id", JNum 1); ("user_id", JNum 1); ("product", JStr "widget")])
           5 200 201 (NoResponse (JStr "ETIMEDOUT")));
    first [reflexivity | lia].
Defined.

Lemma widget_quantity_missing :
  run replay (post_orders Sample.widget_order)
      [Resolved (JObj [("product", JStr "widget")])] =
    Some (Val {| status := 400; body := JObj [("error", JStr "Product quantity is 0")] |},
          [], [(managementCircuit, inventory_check (JStr "widget"))]).
Proof.
  apply (odd_quantities_answer_400 replay
           [Resolved (JObj [("product", JStr "widget")])] []
           Sample.widget_order (JStr "widget") (JObj [("product", JStr "widget")])
           JUndefined);
    [reflexivity | reflexivity | reflexivity |].
  left. reflexivity.
Defined.

(** The specification's example: user 7 with an order of user 7 and one of
    user 9. *)
Lemma details_of_user_seven :
  run replay (get_user_details Sample.decimal "7")
      [Resolved (JObj [("email", JStr "u7@example.org"); ("name", JStr "seven")]);
       Resolved (JArr [JObj [("id", JNum 1); ("user_id", JNum 7); ("product", JStr "widget")];
                       JObj [("id", JNum 2); ("user_id", JNum 9); ("product", JStr "gadget")]])] =
    Some (Val {| status := 200;
                 body :=
                   JObj [("user", JObj [("email", JStr "u7@example.org");
                                        ("name", JStr "seven")]);
                         ("orders",
                          JArr (List.filter
                                  (fun order =>
                                     match get order "user_id" with
                                     | Val uid => loose_eq_str Sample.decimal uid "7"
                                     | Err _ => false
                                     end)
                                  [JObj [("id", JNum 1); ("user_id", JNum 7);
                                         ("product", JStr "widget")];
                                   JObj [("id", JNum 2); ("user_id", JNum 9);
                                         ("product", JStr "gadget")]]))] |},
          [],
          [(usersCircuit, fetch ("/users/" +:+ "7")); (ordersCircuit, fetch "/orders")]).
Proof.
  apply (details_return_the_orders_of_the_user replay Sample.decimal
           [Resolved (JObj [("email", JStr "u7@example.org"); ("name", JStr "seven")]);
            Resolved (JArr [JObj [("id", JNum 1); ("user_id", JNum 7);
                                  ("product", JStr "widget")];
                            JObj [("id", JNum 2); ("user_id", JNum 9);
                                  ("product", JStr "gadget")]])]
           [Resolved (JArr [JObj [("id", JNum 1); ("user_id", JNum 7);
                                  ("product", JStr "widget")];
                            JObj [("id", JNum 2); ("user_id", JNum 9);
                                  ("product", JStr "gadget")]])]
           [] "7"
           (JObj [("email", JStr "u7@example.org"); ("name", JStr "seven")])
           JUndefined
           [JObj [("id", JNum 1); ("user_id", JNum 7); ("product", JStr "widget")];
            JObj [("id", JNum 2); ("user_id", JNum 9); ("product", JStr "gadget")]]).
  - reflexivity.
  - reflexivity.
  - reflexivity.
  - discriminate.
  - repeat constructor; discriminate.
Defined.

(** ** The gateway in front of the order store *)

(** X23: [GET /orders] at the gateway against an order store with no rows
    and no cached list is answered 200, with the order service's 404 body
    [{error: 'Orders not found'}] as the body: the proxy takes a 404 for a
    result, and the route sends whatever it resolved to. *)
Theorem empty_order_list_is_answered_200 (axios_error : Z -> value -> value)
    (joi_message : value -> string) (StringToNumber : string -> option Z)
    (w : Deployment.world) :
  OrderModel.rows (OrderService.db (Deployment.orders w)) = [] ->
  OrderService.cache (Deployment.orders w) !! "order:all" = None ->
  run (Deployment.fire axios_error joi_message) (handler StringToNumber GetOrders) w
  = Some (Val {| status := 200; body := JObj [("error", JStr "Orders not found")] |},
          {| Deployment.management := Deployment.management w;
             Deployment.orders :=
               {| OrderService.db :=
                    OrderModel.truncated (OrderService.db (Deployment.orders w));
                  OrderService.cache := OrderService.cache (Deployment.orders w) |} |},
          [(ordersCircuit, fetch "/orders")]).
Proof.
  intros Hempty Hmiss. cbn [handler]. handler_step.
  unfold Deployment.fire, fires, Deployment.serve.
  cbn [method path fetch String.eqb Ascii.eqb Bool.eqb].
  unfold OrderRouter.get_orders, OrderService.getOrderAll, OrderModel.getAll.
  rewrite Hmiss, Hempty. reflexivity.
Qed.

Lemma no_orders_listed_at_the_gateway :
  run (Deployment.fire Sample.axios_error Sample.joi_message)
      (handler Sample.decimal GetOrders) Sample.untracked
  = Some (Val {| status := 200; body := JObj [("error", JStr "Orders not found")] |},
          {| Deployment.management := Deployment.management Sample.untracked;
             Deployment.orders :=
               {| OrderService.db :=
                    OrderModel.truncated (OrderService.db (Deployment.orders Sample.untracked));
                  OrderService.cache :=
                    OrderService.cache (Deployment.orders Sample.untracked) |} |},
          [(ordersCircuit, fetch "/orders")]).
Proof.
  apply (empty_order_list_is_answered_200 Sample.axios_error Sample.joi_message
           Sample.decimal Sample.untracked);
    reflexivity.
Defined.

(** ** Resolved bodies on the single-call routes *)

Section PassThrough.

Context {W : Type} (settles : circuit -> request -> W -> option (outcome * W)).
Context (StringToNumber : string -> option Z).

(** X24: on every route that fires one breaker, the lookups apart
    ([GET /users/:userId], and [GET /orders/:orderId] with the paths
    [/orders/status] and [/orders/health] that it serves), whatever the call
    resolves to is sent back unchanged under the route's success status: a
    backend's 404 body such as [{error: 'Users not found'}] is answered with
    200 (201 on the two creating routes). *)
Theorem single_call_routes_send_what_resolved (rt : route) (c : circuit)
    (r : request) (ok : Z) (w w1 : W) (v : value) :
  plain rt = Some (c, r, ok) ->
  is_lookup rt = false ->
  settles c r w = Some (Resolved v, w1) ->
  run settles (handler StringToNumber rt) w =
    Some (Val {| status := ok; body := v |}, w1, [(c, r)]).
Proof.
  intros Hplain Hlookup Hres.
  destruct rt; cbn [plain] in Hplain; inversion Hplain; subst c r ok; clear Hplain;
    cbn [is_lookup] in Hlookup; try discriminate Hlookup;
    cbn [handler]; unfold get_management_product;
    handler_step; rewrite Hres; reflexivity.
Qed.

End PassThrough.

Lemma no_users_listed_at_the_gateway :
  run replay (handler Sample.decimal GetUsers)
      [action Sample.axios_error
         (HttpResponse 404 (JObj [("error", JStr "Users not found")]))] =
    Some (Val {| status := 200; body := JObj [("error", JStr "Users not found")] |},
          [], [(usersCircuit, fetch "/users")]).
Proof.
  apply (single_call_routes_send_what_resolved replay Sample.decimal GetUsers
           usersCircuit (fetch "/users") 200
           [action Sample.axios_error
              (HttpResponse 404 (JObj [("error", JStr "Users not found")]))]
           [] (JObj [("error", JStr "Users not found")]));
    reflexivity.
Defined.

(** ** The inventory write, replayed *)

Lemma set_quantity_twice (p : string) (q : Z) (t : list ManagementModel.row) :
  map (ManagementModel.set_quantity p q) (map (ManagementModel.set_quantity p q) t)
  = map (ManagementModel.set_quantity p q) t.
Proof.
  induction t as [| a t IH]; cbn [map]; [reflexivity |]. rewrite IH. f_equal.
  destruct (ManagementModel.named p a) eqn:Ha.
  - assert (Hset : ManagementModel.set_quantity p q a
                   = {| ManagementModel.id := ManagementModel.id a;
                        ManagementModel.product := ManagementModel.product a;
                        ManagementModel.quantity := q |})
      by (unfold ManagementModel.set_quantity; rewrite Ha; reflexivity).
    rewrite Hset. unfold ManagementModel.set_quantity, ManagementModel.named.
    cbn [ManagementModel.product]. unfold ManagementModel.named in Ha. rewrite Ha.
    reflexivity.
  - assert (Hset : ManagementModel.set_quantity p q a = a)
      by (unfold ManagementModel.set_quantity; rewrite Ha; reflexivity).
    rewrite !Hset. reflexivity.
Qed.

Lemma put_product_table (joi_message : value -> string) (p : string) (q : Z)
    (st : ManagementService.state) :
  ManagementService.table (snd (ManagementRouter.put_product joi_message p q st))
  = if ManagementRouter.updateSchema p q
    then map (ManagementModel.set_quantity p q) (ManagementService.table st)
    else ManagementService.table st.
Proof.
  unfold ManagementRouter.put_product, ManagementService.decreaseQuantity,
    ManagementModel.decreaseQuantity.
  destruct (ManagementRouter.updateSchema p q); [| reflexivity].
  destruct (List.find _ _); reflexivity.
Qed.

(** X25: the inventory write of the saga sets a quantity and does not
    subtract: the same [PUT /product] served a second time leaves the table
    as the first left it, so two orders placed from one observed quantity
    lower the stock by one, not by two. *)
Theorem inventory_write_replayed (joi_message : value -> string) (p : string) (q : Z)
    (st : ManagementService.state) :
  ManagementService.table
    (snd (ManagementRouter.put_product joi_message p q
            (snd (ManagementRouter.put_product joi_message p q st))))
  = ManagementService.table (snd (ManagementRouter.put_product joi_message p q st)).
Proof.
  rewrite !put_product_table.
  destruct (ManagementRouter.updateSchema p q); [| reflexivity].
  apply set_quantity_twice.
Qed.
